(** * MEIGA-SR command-line orchestrator (src/main.py)

    A shallow embedding of the script that parses the command line, resolves
    the run configuration from the [MEIGA-SR] section of an INI file, prepares
    the output and log directories, checks the reference databases and hands
    over to one of the two calling engines.

    The script is a straight-line sequence of statements with side effects.
    It is embedded in a small monad that threads the trace of observable
    effects and stops at the first raised exception (SystemExit included).
    The collaborators that live outside the script (GAPI, modules.caller,
    the file system, the clock) are fields of an environment record. *)

From Stdlib Require Import String Ascii List ZArith Bool Lia.
Import ListNotations.
Open Scope string_scope.

(** ** Python built-ins used by the script

    A [str] is kept as its UTF-8 encoding, one [ascii] for each byte. *)

Module Py.

(** The one-byte characters that [str.isspace()] accepts: TAB, LF, VT, FF,
    CR, FS, GS, RS, US and the space. *)
Definition is_space (c : ascii) : bool :=
  let n := nat_of_ascii c in
  (((9 <=? n) && (n <=? 13)) || ((28 <=? n) && (n <=? 32)))%nat.

(** Number of bytes of the white-space character a string starts with, 0
    when it starts with none. Beyond the one-byte ones, [str.isspace()]
    accepts U+0085, U+00A0 (C2 85, C2 A0), U+1680 (E1 9A 80), U+2000 to
    U+200A, U+2028, U+2029, U+202F (E2 80 80 to 8A, A8, A9, AF), U+205F
    (E2 81 9F) and U+3000 (E3 80 80). *)
Definition space_len (s : string) : nat :=
  match s with
  | EmptyString => 0
  | String c r =>
      if is_space c then 1
      else
        match r with
        | EmptyString => 0
        | String d r' =>
            let c := nat_of_ascii c in
            let d := nat_of_ascii d in
            if ((c =? 194) && ((d =? 133) || (d =? 160)))%nat then 2
            else
              match r' with
              | EmptyString => 0
              | String e _ =>
                  let e := nat_of_ascii e in
                  if (((c =? 225) && (d =? 154) && (e =? 128))
                      || ((c =? 226) && (d =? 128)
                          && (((128 <=? e) && (e <=? 138))
                              || (e =? 168) || (e =? 169) || (e =? 175)))
                      || ((c =? 226) && (d =? 129) && (e =? 159))
                      || ((c =? 227) && (d =? 128) && (e =? 128)))%nat
                  then 3
                  else 0
              end
        end
  end.

(** The string without its first [n] bytes. *)
Fixpoint drop (n : nat) (s : string) : string :=
  match n, s with
  | O, _ => s
  | S k, String _ r => drop k r
  | S _, EmptyString => EmptyString
  end.

(** The first [n] bytes of the string. *)
Fixpoint take (n : nat) (s : string) : string :=
  match n, s with
  | O, _ => EmptyString
  | S k, String c r => String c (take k r)
  | S _, EmptyString => EmptyString
  end.

(** [s.lstrip()]; [pending] bytes of a white-space character are still
    to be skipped. *)
Fixpoint lstrip_from (pending : nat) (s : string) : string :=
  match s with
  | EmptyString => EmptyString
  | String _ r =>
      match pending with
      | S k => lstrip_from k r
      | O =>
          match space_len s with
          | O => s
          | S k => lstrip_from k r
          end
      end
  end.

Definition lstrip (s : string) : string := lstrip_from 0 s.

(** Only white space. *)
Definition all_space (s : string) : bool :=
  match lstrip s with
  | EmptyString => true
  | _ => false
  end.

(** [s.rstrip()]: the bytes up to the point from which only white space
    follows. *)
Fixpoint rstrip (s : string) : string :=
  match s with
  | EmptyString => EmptyString
  | String c r => if all_space s then EmptyString else String c (rstrip r)
  end.

(** [s.strip()] *)
Definition strip (s : string) : string := rstrip (lstrip s).

(** [s.split(sep)] for a one-character separator: every occurrence of the
    separator cuts, empty pieces are kept, the result is never empty. *)
Fixpoint split (sep : ascii) (s : string) : list string :=
  match s with
  | EmptyString => [EmptyString]
  | String c r =>
      if Ascii.eqb c sep then EmptyString :: split sep r
      else match split sep r with
           | [] => [String c EmptyString]
           | h :: t => String c h :: t
           end
  end.

(** [sep.join(l)] *)
Fixpoint join (sep : string) (l : list string) : string :=
  match l with
  | [] => EmptyString
  | [x] => x
  | x :: r => x ++ sep ++ join sep r
  end.

Definition lower_char (c : ascii) : ascii :=
  let n := nat_of_ascii c in
  if ((65 <=? n) && (n <=? 90))%nat then ascii_of_nat (n + 32) else c.

(** [s.lower()] on the letters A to Z. *)
Fixpoint lower (s : string) : string :=
  match s with
  | EmptyString => EmptyString
  | String c r => String (lower_char c) (lower r)
  end.

(** Only bytes below 128. *)
Fixpoint is_ascii (s : string) : bool :=
  match s with
  | EmptyString => true
  | String c r => (nat_of_ascii c <? 128)%nat && is_ascii r
  end.

Definition digit_of (c : ascii) : option Z :=
  let n := nat_of_ascii c in
  if ((48 <=? n) && (n <=? 57))%nat then Some (Z.of_nat (n - 48)) else None.

(** Digits of a base-10 literal: at least one digit, single underscores
    allowed between digits only. [after_digit] tells whether the previous
    character was a digit. *)
Fixpoint digits (after_digit : bool) (acc : Z) (s : string) : option Z :=
  match s with
  | EmptyString => if after_digit then Some acc else None
  | String c r =>
      match digit_of c with
      | Some d => digits true (10 * acc + d) r
      | None =>
          if Ascii.eqb c "_" && after_digit then digits false acc r else None
      end
  end.

(** The white space [int] skips around an ASCII literal: TAB, LF, VT, FF,
    CR and the space (not FS, GS, RS, US). *)
Definition int_space (c : ascii) : bool :=
  let n := nat_of_ascii c in
  (((9 <=? n) && (n <=? 13)) || (n =? 32))%nat.

Fixpoint int_lstrip (s : string) : string :=
  match s with
  | EmptyString => EmptyString
  | String c r => if int_space c then int_lstrip r else s
  end.

Fixpoint int_rstrip (s : string) : string :=
  match s with
  | EmptyString => EmptyString
  | String c r =>
      match int_rstrip r with
      | EmptyString => if int_space c then EmptyString else String c EmptyString
      | r' => String c r'
      end
  end.

(** Number of digits in a string. *)
Fixpoint digit_count (s : string) : Z :=
  match s with
  | EmptyString => 0
  | String c r =>
      (match digit_of c with Some _ => 1 | None => 0 end + digit_count r)%Z
  end.

(** [sys.get_int_max_str_digits()], as the interpreter starts. *)
Definition max_str_digits : Z := 4300.

(** [int(s)] for an ASCII [s]: surrounding white space is skipped, then one
    optional sign, then the digits, no more than [max_str_digits] of them.
    [None] stands for ValueError. *)
Definition int (s : string) : option Z :=
  let body := int_rstrip (int_lstrip s) in
  if (max_str_digits <? digit_count body)%Z then None
  else
    match body with
    | String "-" r => option_map Z.opp (digits false 0 r)
    | String "+" r => digits false 0 r
    | r => digits false 0 r
    end.

(** Does the string contain the character? *)
Fixpoint mem_char (c : ascii) (s : string) : bool :=
  match s with
  | EmptyString => false
  | String c' r => Ascii.eqb c' c || mem_char c r
  end.

(** Number of occurrences of a character. *)
Fixpoint count_char (c : ascii) (s : string) : nat :=
  match s with
  | EmptyString => 0
  | String c' r => (if Ascii.eqb c' c then 1 else 0) + count_char c r
  end.

(** Does not start with white space. *)
Definition no_space_first (s : string) : bool := (space_len s =? 0)%nat.

(** Does not end with white space: nothing but the empty string is left
    when a piece made of white space only is cut off the end. *)
Fixpoint no_space_last (s : string) : bool :=
  match s with
  | EmptyString => true
  | String _ r => negb (all_space s) && no_space_last r
  end.

End Py.

(** ** Values, namespaces and exceptions *)

(** The Python values that travel through the script. Floats are kept
    apart (see [conf_value]): they only occur as values of the
    configuration dictionary. *)
Inductive pyvalue :=
| VNone
| VBool (b : bool)
| VInt (z : Z)
| VStr (s : string)
| VList (l : list string).

(** Truth value of an object in a condition. *)
Definition truthy (v : pyvalue) : bool :=
  match v with
  | VNone => false
  | VBool b => b
  | VInt z => negb (Z.eqb z 0)
  | VStr s => negb (String.eqb s "")
  | VList l => negb (Nat.eqb (length l) 0)
  end.

Definition type_name (v : pyvalue) : string :=
  match v with
  | VNone => "NoneType"
  | VBool _ => "bool"
  | VInt _ => "int"
  | VStr _ => "str"
  | VList _ => "list"
  end.

(** [x == s] for a string literal [s]. *)
Definition eq_str (v : pyvalue) (s : string) : bool :=
  match v with
  | VStr s' => String.eqb s' s
  | _ => false
  end.

(** A dictionary with string keys, in insertion order; assignment to an
    existing key replaces the value in place. Used for the attributes of an
    argparse Namespace and for confDict. *)
Section Dict.
Context {V : Type}.

Fixpoint dict_get (d : list (string * V)) (k : string) : option V :=
  match d with
  | [] => None
  | (k', v) :: r => if String.eqb k' k then Some v else dict_get r k
  end.

Fixpoint dict_set (d : list (string * V)) (k : string) (v : V) : list (string * V) :=
  match d with
  | [] => [(k, v)]
  | (k', v') :: r =>
      if String.eqb k' k then (k, v) :: r else (k', v') :: dict_set r k v
  end.
End Dict.

Definition namespace := list (string * pyvalue).

Inductive exn :=
| SystemExit (code : Z)
| AttributeError (of_type attr : string)
| KeyError (key : string)
| ValueError (converter raw : string)
| TypeError (operation of_type : string)
| OSError (path : string)
| ConfigparserError (name : string)
| CollaboratorError (who : string)
| OutsideModel (what : string).

(** Exit status of the process for an outcome of the script: the argument of
    SystemExit, 1 for any other uncaught exception, 0 at the normal end. *)
Definition exit_status {A : Type} (r : exn + A) : Z :=
  match r with
  | inl (SystemExit c) => c
  | inl _ => 1
  | inr _ => 0
  end.

(** The two engines of modules.caller. *)
Inductive engine := MEI_caller | transduction_caller.

(** ** The argument parser (lines 50-78 and 89)

    argparse is modelled on the command lines made of the two subcommand
    names, the option strings written in full exactly as declared, tokens
    that do not start with a dash and negative integers (a dash and
    digits). Abbreviated long options, the [--opt=value] and [-oVALUE]
    spellings, [--], any other token starting with a dash and a value of
    [-p] that is not ASCII are answered [NotModelled]. *)

Inductive parse_result :=
| Parsed (ns : namespace)
| ParserExit (code : Z)
| NotModelled.

Inductive subcommand := Call | CallTds.

Inductive opt := OHelp | ONormalBam | OOutDir | OProcesses | ODebug | OPredict.

Definition subcommand_of (tok : string) : option subcommand :=
  if String.eqb tok "call" then Some Call
  else if String.eqb tok "call-tds" then Some CallTds
  else None.

(** The option strings of a subparser; [--predict] is declared for
    [call] only. *)
Definition option_of (sub : subcommand) (tok : string) : option opt :=
  if String.eqb tok "-h" || String.eqb tok "--help" then Some OHelp
  else if String.eqb tok "--normalBam" then Some ONormalBam
  else if String.eqb tok "-o" || String.eqb tok "--outDir" then Some OOutDir
  else if String.eqb tok "-p" || String.eqb tok "--processes" then Some OProcesses
  else if String.eqb tok "-d" || String.eqb tok "--debug" then Some ODebug
  else if String.eqb tok "--predict" then
    match sub with Call => Some OPredict | CallTds => None end
  else None.

Definition starts_with_dash (tok : string) : bool :=
  match tok with
  | String "-" _ => true
  | _ => false
  end.

Fixpoint all_digits (s : string) : bool :=
  match s with
  | EmptyString => true
  | String c r =>
      match Py.digit_of c with Some _ => all_digits r | None => false end
  end.

(** A dash and one or more digits. No option string of the parser looks
    like a negative number, so argparse takes such a token for an
    argument, not for an option. *)
Definition negative_int (tok : string) : bool :=
  match tok with
  | String "-" (String c r) => all_digits (String c r)
  | _ => false
  end.

(** The tokens argparse takes for arguments (positional ones, or the
    value of an option). *)
Definition is_argument (tok : string) : bool :=
  negb (starts_with_dash tok) || negative_int tok.

Definition modelled_token (sub : subcommand) (tok : string) : bool :=
  is_argument tok ||
  match option_of sub tok with Some _ => true | None => false end.

(** Attributes a subparser starts from: the default of each declared
    argument, then its [set_defaults]. *)
Definition sub_defaults (cwd : string) (sub : subcommand) : namespace :=
  ([("config", VNone); ("bam", VNone); ("normalBam", VNone);
    ("outDir", VStr cwd); ("processes", VInt 1); ("debug", VBool false)]
   ++ match sub with
      | Call => [("predict", VBool false); ("call_tds", VBool false)]
      | CallTds => [("call_tds", VBool true)]
      end)%list.

(** Tokens are consumed from left to right; [pos] collects the positional
    ones. An option that takes a value wants an argument as the next
    token; [-p] converts it with [int]. Help exits with 0, every usage
    error with 2. *)
Fixpoint parse_sub (sub : subcommand) (toks : list string) (pos : list string)
         (ns : namespace) : parse_result :=
  match toks with
  | [] =>
      match pos with
      | [c; b] => Parsed (dict_set (dict_set ns "config" (VStr c)) "bam" (VStr b))
      | _ => ParserExit 2
      end
  | tok :: rest =>
      match option_of sub tok with
      | None => parse_sub sub rest (pos ++ [tok])%list ns
      | Some OHelp => ParserExit 0
      | Some ODebug => parse_sub sub rest pos (dict_set ns "debug" (VBool true))
      | Some OPredict => parse_sub sub rest pos (dict_set ns "predict" (VBool true))
      | Some ONormalBam =>
          match rest with
          | v :: rest' =>
              if is_argument v
              then parse_sub sub rest' pos (dict_set ns "normalBam" (VStr v))
              else ParserExit 2
          | [] => ParserExit 2
          end
      | Some OOutDir =>
          match rest with
          | v :: rest' =>
              if is_argument v
              then parse_sub sub rest' pos (dict_set ns "outDir" (VStr v))
              else ParserExit 2
          | [] => ParserExit 2
          end
      | Some OProcesses =>
          match rest with
          | v :: rest' =>
              if is_argument v
              then if Py.is_ascii v
                   then match Py.int v with
                        | Some z =>
                            parse_sub sub rest' pos (dict_set ns "processes" (VInt z))
                        | None => ParserExit 2
                        end
                   else NotModelled
              else ParserExit 2
          | [] => ParserExit 2
          end
      end
  end.

(** [parser.parse_args()] on [sys.argv[1:]]. The subparsers are not
    required: an empty command line gives an empty Namespace. *)
Definition parse_args (cwd : string) (argv : list string) : parse_result :=
  match argv with
  | [] => Parsed []
  | tok :: rest =>
      if String.eqb tok "-h" || String.eqb tok "--help" then ParserExit 0
      else if starts_with_dash tok then NotModelled
      else match subcommand_of tok with
           | None => ParserExit 2
           | Some sub =>
               if forallb (modelled_token sub) rest
               then parse_sub sub rest [] (sub_defaults cwd sub)
               else NotModelled
           end
  end.

(** What the attributes of a Namespace built by a subparser look like. *)
Definition parsed_shape (sub : subcommand) (ns : namespace) : Prop :=
  (dict_get ns "normalBam" = Some VNone \/
   exists p, dict_get ns "normalBam" = Some (VStr p))
  /\ (exists o, dict_get ns "outDir" = Some (VStr o))
  /\ (exists z, dict_get ns "processes" = Some (VInt z))
  /\ (exists b, dict_get ns "debug" = Some (VBool b))
  /\ dict_get ns "call_tds"
     = Some (VBool match sub with CallTds => true | Call => false end)
  /\ match sub with
     | Call => exists b, dict_get ns "predict" = Some (VBool b)
     | CallTds => dict_get ns "predict" = None
     end.

(** A reference name as [get_refs] lists them: no comma inside, no
    white space around. *)
Definition clean_name (n : string) : Prop :=
  Py.mem_char "," n = false /\ Py.strip n = n.

(** ** The script *)

Section Script.

(** [float(s)] is not interpreted: a type of floats and the conversion
    ([None] for ValueError) are parameters. *)
Variable pyfloat : Type.
Variable py_float : string -> option pyfloat.

(** Values of confDict: an object as above, or a float. *)
Inductive conf_value :=
| Obj (v : pyvalue)
| Flt (f : pyfloat).

Definition conf_dict := list (string * conf_value).

(** The section proxy [meigaConfig['MEIGA-SR']], by what it answers.
    [options] are the options the proxy has (those of the section, then
    those of DEFAULT), under the names the parser stores and each with the
    text [get] returns for it. [get_raises] tells, for an option it has,
    the exception [get] raises instead of returning (BasicInterpolation
    refuses a value where a percent sign is followed by neither a second
    one nor a reference it can resolve). *)
Record config_proxy := {
  options : list (string * string);
  get_raises : string -> option exn
}.

(** What the script cannot decide by itself. [clock n] is the text
    [datetime.now().strftime("%Y%m%d%H%M%S")] gives at the n-th reading of
    the clock (from 0). [read_error f] is the exception
    [meigaConfig.read(f)] raises on a file it cannot parse
    (MissingSectionHeaderError, ParsingError, DuplicateOptionError,
    DuplicateSectionError, UnicodeDecodeError); a file that is missing or
    cannot be opened is skipped and raises nothing. [config_section f] is
    the proxy of the MEIGA-SR section after [f] was read, [None] when there
    is no such section. [get_refs] returns an object or raises. *)
Record Env := {
  argv0 : string;
  cwd : string;
  missing_python_dependencies : list string;
  missing_program_dependencies : list string;
  missing_db : pyvalue -> conf_value -> list string;
  clock : nat -> string;
  read_error : pyvalue -> option exn;
  config_section : pyvalue -> option config_proxy;
  makedirs_ok : pyvalue -> bool;
  get_refs : pyvalue -> exn + pyvalue;
  engine_init_ok : engine -> bool;
  engine_call_ok : engine -> bool
}.

(** Records handed to [logger.info]; [LogStr p v s] is the line
    [p + str(v) + s]. *)
Inductive log_record :=
| LogBanner (script version : string)
| LogText (msg : string)
| LogStr (prefix : string) (v : conf_value) (suffix : string)
| LogFinished.

(** Observable effects, in the order the script performs them. *)
Inductive event :=
| CheckPython
| CheckPrograms
| CheckDb (refDir : pyvalue) (annovarDir : conf_value)
| TimeRead
| SetStartMethod (method : string)
| Now (stamp : string)
| Makedirs (path : pyvalue)
| ReadConfig (file : pyvalue)
| GetRefs (bam : pyvalue)
| SetupLogger (name file : string)
| Log (r : log_record)
| Construct (kind : engine) (mode : string)
            (bam normalBam reference refDir : pyvalue) (conf : conf_dict)
| CallEngine (kind : engine).

(** The state is the list of effects so far, latest first; a computation
    ends with a value or with a raised exception, and keeps the effects
    performed before the exception. *)
Definition M (A : Type) : Type := list event -> (exn + A) * list event.

Definition ret {A : Type} (a : A) : M A := fun s => (inr a, s).

Definition raise {A : Type} (e : exn) : M A := fun s => (inl e, s).

Definition bind {A B : Type} (m : M A) (f : A -> M B) : M B :=
  fun s =>
    match m s with
    | (inl e, s') => (inl e, s')
    | (inr a, s') => f a s'
    end.

Definition emit (e : event) : M unit := fun s => (inr tt, e :: s).

Local Notation "x <- m ;; k" := (bind m (fun x => k))
  (at level 61, m at next level, right associativity).
Local Notation "m ;;; k" := (bind m (fun _ => k))
  (at level 61, right associativity).

Definition lift {A : Type} (r : exn + A) : M A :=
  match r with
  | inl e => raise e
  | inr a => ret a
  end.

(** Run a computation from the empty trace; effects in chronological
    order. *)
Definition outcome {A : Type} (m : M A) : exn + A := fst (m []).
Definition trace {A : Type} (m : M A) : list event := rev (snd (m [])).

Variable env : Env.

Definition is_now (e : event) : bool :=
  match e with Now _ => true | _ => false end.

(** [str(datetime.now().strftime("%Y%m%d%H%M%S"))] *)
Definition now : M string :=
  fun s =>
    let stamp := clock env (length (filter is_now s)) in
    (inr stamp, Now stamp :: s).

(** [os.makedirs(path, exist_ok=True)] *)
Definition makedirs (path : pyvalue) : M unit :=
  match path with
  | VStr _ =>
      if makedirs_ok env path then emit (Makedirs path) else raise (OSError "makedirs")
  | _ => raise (TypeError "makedirs" (type_name path))
  end.

(** [args.name] *)
Definition getattr (args : namespace) (name : string) : exn + pyvalue :=
  match dict_get args name with
  | Some v => inr v
  | None => inl (AttributeError "Namespace" name)
  end.

(** The left operand of [v + '...'] must be a str. *)
Definition as_str (v : pyvalue) : exn + string :=
  match v with
  | VStr s => inr s
  | _ => inl (TypeError "+" (type_name v))
  end.

(** *** Reading the section proxy *)

(** Option names are compared through [optionxform], which lowers them. *)
Fixpoint lookup_text (l : list (string * string)) (k : string) : option string :=
  match l with
  | [] => None
  | (k', v) :: r =>
      if String.eqb (Py.lower k') (Py.lower k) then Some v else lookup_text r k
  end.

Definition option_lookup (config : config_proxy) (k : string) : option string :=
  lookup_text (options config) k.

(** [config.get(k)]: the fallback of the proxy is None. *)
Definition config_get (config : config_proxy) (k : string) : exn + pyvalue :=
  match option_lookup config k with
  | None => inr VNone
  | Some v =>
      match get_raises config (Py.lower k) with
      | Some e => inl e
      | None => inr (VStr v)
      end
  end.

(** [config.getint(k)], that is [int(config.get(k))]: None when the
    option is missing, ValueError when [int] refuses the text. A text that
    is not ASCII is left out ([int] reads the decimal digits of every
    script). *)
Definition config_getint (config : config_proxy) (k : string) : exn + pyvalue :=
  match config_get config k with
  | inl e => inl e
  | inr (VStr v) =>
      if Py.is_ascii v
      then match Py.int v with
           | Some z => inr (VInt z)
           | None => inl (ValueError "int" v)
           end
      else inl (OutsideModel "int")
  | inr v => inr v
  end.

(** [config.getfloat(k)] *)
Definition config_getfloat (config : config_proxy) (k : string) : exn + conf_value :=
  match config_get config k with
  | inl e => inl e
  | inr (VStr v) =>
      match py_float v with
      | Some f => inr (Flt f)
      | None => inl (ValueError "float" v)
      end
  | inr v => inr (Obj v)
  end.

Definition mem_str (s : string) (l : list string) : bool :=
  existsb (String.eqb s) l.

(** [config.getboolean(k)]: the lowered text is looked up in
    BOOLEAN_STATES. *)
Definition config_getboolean (config : config_proxy) (k : string) : exn + pyvalue :=
  match config_get config k with
  | inl e => inl e
  | inr (VStr v) =>
      if mem_str (Py.lower v) ["1"; "yes"; "true"; "on"] then inr (VBool true)
      else if mem_str (Py.lower v) ["0"; "no"; "false"; "off"] then inr (VBool false)
      else inl (ValueError "boolean" v)
  | inr v => inr v
  end.

(** [None if config.get(k) == 'none' else config.get(k)] *)
Definition get_or_none (config : config_proxy) (k : string) : exn + pyvalue :=
  match config_get config k with
  | inl e => inl e
  | inr v => if eq_str v "none" then inr VNone else config_get config k
  end.

(** [[x.strip() for x in v.split(',')]] *)
Definition split_strip (v : pyvalue) : exn + pyvalue :=
  match v with
  | VStr s => inr (VList (map Py.strip (Py.split "," s)))
  | _ => inl (AttributeError (type_name v) "split")
  end.

(** [bamtools.get_refs(bam)] *)
Definition call_get_refs (bam : pyvalue) : M pyvalue :=
  emit (GetRefs bam) ;;;
  lift (get_refs env bam).

Definition VERSION : string := "1.1.0".

(** The local variables the rest of the script reads after the
    configuration dictionary is filled. *)
Record resolved := {
  r_reference : pyvalue;
  r_refDir : pyvalue;
  r_outDir : string;
  r_logDir : string;
  r_confDict : conf_dict
}.

(** *** 2.3 Create configuration dictionary (lines 116 to 181) *)

Definition create_configuration (args : namespace) (bam processes : pyvalue)
           (config : config_proxy) : M resolved :=
  let confDict : conf_dict := [] in
  (* General *)
  reference <- lift (config_get config "reference") ;;
  refDir <- lift (config_get config "refDir") ;;
  let confDict := dict_set confDict "source" (Obj (VStr ("MEIGA-SR-" ++ VERSION))) in
  species <- lift (config_get config "species") ;;
  let confDict := dict_set confDict "species" (Obj species) in
  build <- lift (config_get config "build") ;;
  let confDict := dict_set confDict "build" (Obj build) in
  annovarDir <- lift (config_get config "annovarDir") ;;
  let confDict := dict_set confDict "annovarDir" (Obj annovarDir) in
  germlineMEI <- lift (get_or_none config "germlineMEI") ;;
  let confDict := dict_set confDict "germlineMEI" (Obj germlineMEI) in
  let confDict := dict_set confDict "processes" (Obj processes) in
  debug <- lift (getattr args "debug") ;;
  let confDict := dict_set confDict "debug" (Obj debug) in
  predict <- lift (getattr args "predict") ;;
  let confDict := dict_set confDict "predict" (Obj predict) in
  (* BAM processing *)
  targetBins <- lift (get_or_none config "targetBins") ;;
  let confDict := dict_set confDict "targetBins" (Obj targetBins) in
  binSize <- lift (config_getint config "binSize") ;;
  let confDict := dict_set confDict "binSize" (Obj binSize) in
  filterDup <- lift (config_getboolean config "noDuplicates") ;;
  let confDict := dict_set confDict "filterDup" (Obj filterDup) in
  readFilters <- lift (config_get config "readFilters") ;;
  readFilters <- lift (split_strip readFilters) ;;
  let confDict := dict_set confDict "readFilters" (Obj readFilters) in
  minMAPQ <- lift (config_getint config "minMAPQ") ;;
  let confDict := dict_set confDict "minMAPQ" (Obj minMAPQ) in
  minCLIPPINGlen <- lift (config_getint config "minCLIPPINGlen") ;;
  let confDict := dict_set confDict "minCLIPPINGlen" (Obj minCLIPPINGlen) in
  let confDict := dict_set confDict "targetEvents" (Obj (VList ["DISCORDANT"; "CLIPPING"])) in
  (* Target refs *)
  refs <- lift (config_get config "refs") ;;
  refs <- (if eq_str refs "ALL" then call_get_refs bam else ret refs) ;;
  targetRefs <- lift (split_strip refs) ;;
  let confDict := dict_set confDict "targetRefs" (Obj targetRefs) in
  (* Clustering *)
  minClusterSize <- lift (config_getint config "minClusterSize") ;;
  let confDict := dict_set confDict "minClusterSize" (Obj minClusterSize) in
  maxClusterSize <- lift (config_getint config "maxClusterSize") ;;
  let confDict := dict_set confDict "maxClusterSize" (Obj maxClusterSize) in
  maxBkpDist <- lift (config_getint config "BKPdist") ;;
  let confDict := dict_set confDict "maxBkpDist" (Obj maxBkpDist) in
  minPercRcplOverlap <- lift (config_getint config "minPercOverlap") ;;
  let confDict := dict_set confDict "minPercRcplOverlap" (Obj minPercRcplOverlap) in
  equalOrientBuffer <- lift (config_getint config "equalOrientBuffer") ;;
  let confDict := dict_set confDict "equalOrientBuffer" (Obj equalOrientBuffer) in
  oppositeOrientBuffer <- lift (config_getint config "oppositeOrientBuffer") ;;
  let confDict := dict_set confDict "oppositeOrientBuffer" (Obj oppositeOrientBuffer) in
  (* Filtering thresholds *)
  minReads <- lift (config_getint config "minReads") ;;
  let confDict := dict_set confDict "minReads" (Obj minReads) in
  minNormalReads <- lift (config_getint config "minNormalReads") ;;
  let confDict := dict_set confDict "minNormalReads" (Obj minNormalReads) in
  minNbDISCORDANT <- lift (config_getint config "minClusterSize") ;;
  let confDict := dict_set confDict "minNbDISCORDANT" (Obj minNbDISCORDANT) in
  minNbCLIPPING <- lift (config_getint config "minClusterSize") ;;
  let confDict := dict_set confDict "minNbCLIPPING" (Obj minNbCLIPPING) in
  minReadsRegionMQ <- lift (config_getfloat config "minReadsRegionMQ") ;;
  let confDict := dict_set confDict "minReadsRegionMQ" minReadsRegionMQ in
  maxRegionlowMQ <- lift (config_getfloat config "maxRegionlowMQ") ;;
  let confDict := dict_set confDict "maxRegionlowMQ" maxRegionlowMQ in
  maxRegionSMS <- lift (config_getfloat config "maxRegionSMS") ;;
  let confDict := dict_set confDict "maxRegionSMS" maxRegionSMS in
  (* Transduction search *)
  retroTestWGS <- lift (config_getboolean config "wgsData") ;;
  let confDict := dict_set confDict "retroTestWGS" (Obj retroTestWGS) in
  blatClip <- lift (config_getboolean config "blatClip") ;;
  let confDict := dict_set confDict "blatClip" (Obj blatClip) in
  tdEnds <- lift (config_get config "transductionEnds") ;;
  tdEnds <- lift (split_strip tdEnds) ;;
  let confDict := dict_set confDict "tdEnds" (Obj tdEnds) in
  srcBed <- lift (get_or_none config "sourceBed") ;;
  let confDict := dict_set confDict "srcBed" (Obj srcBed) in
  srcFamilies <- lift (config_get config "srcFamilies") ;;
  srcFamilies <- lift (split_strip srcFamilies) ;;
  let confDict := dict_set confDict "srcFamilies" (Obj srcFamilies) in
  (* In debug mode the output is the specified dir + date_time *)
  debug <- lift (getattr args "debug") ;;
  outDir <- (if truthy debug then
               base <- lift (getattr args "outDir") ;;
               base <- lift (as_str base) ;;
               stamp <- now ;;
               ret (VStr (base ++ "/" ++ stamp))
             else lift (getattr args "outDir")) ;;
  outDir <- lift (as_str outDir) ;;
  let logDir := outDir ++ "/logs" in
  let confDict := dict_set confDict "outDir" (Obj (VStr outDir)) in
  let confDict := dict_set confDict "logDir" (Obj (VStr logDir)) in
  ret {| r_reference := reference; r_refDir := refDir;
         r_outDir := outDir; r_logDir := logDir; r_confDict := confDict |}.

(** *** The statements around it *)

(** 1. Check program dependencies are satisfied (lines 22 and 23). The
    second check runs only when the first reports nothing. *)
Definition check_dependencies : M unit :=
  emit CheckPython ;;;
  missingDependencies <-
    (if truthy (VList (missing_python_dependencies env))
     then ret (missing_python_dependencies env)
     else emit CheckPrograms ;;; ret (missing_program_dependencies env)) ;;
  if truthy (VList missingDependencies) then raise (SystemExit 1) else ret tt.

(** Line 89. *)
Definition parse (argv : list string) : M namespace :=
  match parse_args (cwd env) argv with
  | Parsed ns => ret ns
  | ParserExit c => raise (SystemExit c)
  | NotModelled => raise (OutsideModel "argv")
  end.

(** Lines 117 to 119: [read] raises on a file it cannot parse, the
    subscript raises KeyError when the section is not there. *)
Definition read_config (configFile : pyvalue) : M config_proxy :=
  emit (ReadConfig configFile) ;;;
  match read_error env configFile with
  | Some e => raise e
  | None =>
      match config_section env configFile with
      | Some config => ret config
      | None => raise (KeyError "MEIGA-SR")
      end
  end.

(** [confDict[k]] *)
Definition dict_item (d : conf_dict) (k : string) : exn + conf_value :=
  match dict_get d k with
  | Some v => inr v
  | None => inl (KeyError k)
  end.

Definition nl : string := String "010"%char EmptyString.

(** Lines 207 and 208. *)
Fixpoint log_items (d : conf_dict) : M unit :=
  match d with
  | [] => ret tt
  | (key, value) :: r => emit (Log (LogStr (key ++ " => ") value "")) ;;; log_items r
  end.

(** 3. Display configuration (lines 197 to 209). *)
Definition display_configuration (args : namespace)
           (configFile bam normalBam processes : pyvalue) (outDir : string)
           (confDict : conf_dict) : M unit :=
  emit (Log (LogBanner (argv0 env) VERSION)) ;;;
  emit (Log (LogText "*** Arguments ***")) ;;;
  call_tds <- lift (getattr args "call_tds") ;;
  let subcommand := if truthy call_tds then "call-tds" else "call" in
  emit (Log (LogText ("subcommand: " ++ subcommand))) ;;;
  configFile <- lift (as_str configFile) ;;
  emit (Log (LogText ("config file: " ++ configFile))) ;;;
  bam <- lift (as_str bam) ;;
  emit (Log (LogText ("bam: " ++ bam))) ;;;
  emit (Log (LogStr "normalBam: " (Obj normalBam) "")) ;;;
  emit (Log (LogText ("outDir: " ++ outDir))) ;;;
  emit (Log (LogStr "processes: " (Obj processes) (nl ++ nl))) ;;;
  emit (Log (LogText "*** ConfigDict ***")) ;;;
  log_items confDict ;;;
  emit (Log (LogText (nl ++ nl))).

(** 4. Check all required DB are located in the dirs provided (lines 214
    and 215). *)
Definition check_db (refDir : pyvalue) (confDict : conf_dict) : M unit :=
  annovarDir <- lift (dict_item confDict "annovarDir") ;;
  emit (CheckDb refDir annovarDir) ;;;
  if truthy (VList (missing_db env refDir annovarDir)) then raise (SystemExit 1)
  else ret tt.

(** Execute MEI caller (lines 223 to 231). *)
Definition execute_caller (args : namespace) (mode : string)
           (bam normalBam reference refDir : pyvalue) (confDict : conf_dict) : M unit :=
  call_tds <- lift (getattr args "call_tds") ;;
  let kind := if truthy call_tds then transduction_caller else MEI_caller in
  emit (Construct kind mode bam normalBam reference refDir confDict) ;;;
  (if engine_init_ok env kind then ret tt else raise (CollaboratorError "caller")) ;;;
  emit (CallEngine kind) ;;;
  if engine_call_ok env kind then ret tt else raise (CollaboratorError "call").

(** The whole script, on [sys.argv[1:]]. *)
Definition main (argv : list string) : M unit :=
  check_dependencies ;;;
  emit TimeRead ;;;
  emit (SetStartMethod "spawn") ;;;
  (* 2. Parse user's input *)
  args <- parse argv ;;
  configFile <- lift (getattr args "config") ;;
  bam <- lift (getattr args "bam") ;;
  normalBam <- lift (getattr args "normalBam") ;;
  processes <- lift (getattr args "processes") ;;
  (* 2.1 Set output dir *)
  outDir <- lift (getattr args "outDir") ;;
  debug <- lift (getattr args "debug") ;;
  outDir <- (if truthy debug then
               timeStamp <- now ;;
               base <- lift (getattr args "outDir") ;;
               base <- lift (as_str base) ;;
               ret (VStr (base ++ "/" ++ timeStamp))
             else ret outDir) ;;
  makedirs outDir ;;;
  (* 2.2 Determine running mode *)
  let mode := if truthy normalBam then "PAIRED" else "SINGLE" in
  (* 2.3 Create configuration dictionary *)
  config <- read_config configFile ;;
  r <- create_configuration args bam processes config ;;
  makedirs (VStr (r_outDir r)) ;;;
  makedirs (VStr (r_logDir r)) ;;;
  (* 2.5 Initialize log system *)
  emit (SetupLogger "main" (r_logDir r ++ "/main.log")) ;;;
  display_configuration args configFile bam normalBam processes (r_outDir r)
                        (r_confDict r) ;;;
  check_db (r_refDir r) (r_confDict r) ;;;
  execute_caller args mode bam normalBam (r_reference r) (r_refDir r) (r_confDict r) ;;;
  (* Exit *)
  emit TimeRead ;;;
  emit (Log LogFinished).

End Script.

Arguments Obj {pyfloat} v.
Arguments Flt {pyfloat} f.

Arguments CheckPython {pyfloat}.
Arguments CheckPrograms {pyfloat}.
Arguments CheckDb {pyfloat} refDir annovarDir.
Arguments TimeRead {pyfloat}.
Arguments SetStartMethod {pyfloat} method.
Arguments Now {pyfloat} stamp.
Arguments Makedirs {pyfloat} path.
Arguments ReadConfig {pyfloat} file.
Arguments GetRefs {pyfloat} bam.
Arguments SetupLogger {pyfloat} name file.
Arguments Log {pyfloat} r.
Arguments Construct {pyfloat} kind mode bam normalBam reference refDir conf.
Arguments CallEngine {pyfloat} kind.
Arguments LogBanner {pyfloat} script version.
Arguments LogText {pyfloat} msg.
Arguments LogStr {pyfloat} prefix v suffix.
Arguments LogFinished {pyfloat}.
Arguments ret {pyfloat A} a s.
Arguments raise {pyfloat A} e s.
Arguments bind {pyfloat A B} m f s.
Arguments emit {pyfloat} e s.
Arguments lift {pyfloat A} r s.
Arguments outcome {pyfloat A} m.
Arguments trace {pyfloat A} m.
Arguments is_now {pyfloat} e.
Arguments now {pyfloat} env s.
Arguments makedirs {pyfloat} env path s.
Arguments config_getfloat {pyfloat} py_float config k.
Arguments call_get_refs {pyfloat} env bam s.
Arguments check_dependencies {pyfloat} env s.
Arguments parse {pyfloat} env argv s.
Arguments read_config {pyfloat} env configFile s.
Arguments dict_item {pyfloat} d k.
Arguments log_items {pyfloat} d s.
Arguments display_configuration {pyfloat} env args configFile bam normalBam processes outDir confDict s.
Arguments check_db {pyfloat} env refDir confDict s.
Arguments execute_caller {pyfloat} env args mode bam normalBam reference refDir confDict s.
Arguments create_configuration {pyfloat} py_float env args bam processes config s.
Arguments main {pyfloat} py_float env argv s.
Arguments argv0 {pyfloat} e.
Arguments cwd {pyfloat} e.
Arguments missing_python_dependencies {pyfloat} e.
Arguments missing_program_dependencies {pyfloat} e.
Arguments missing_db {pyfloat} e refDir annovarDir.
Arguments clock {pyfloat} e n.
Arguments read_error {pyfloat} e file.
Arguments config_section {pyfloat} e file.
Arguments makedirs_ok {pyfloat} e path.
Arguments get_refs {pyfloat} e bam.
Arguments engine_init_ok {pyfloat} e kind.
Arguments engine_call_ok {pyfloat} e kind.
Arguments r_reference {pyfloat} r.
Arguments r_refDir {pyfloat} r.
Arguments r_outDir {pyfloat} r.
Arguments r_logDir {pyfloat} r.
Arguments r_confDict {pyfloat} r.

(** ** Sample inputs *)

(** A reading of [float] for the sample runs: plain decimal literals, kept
    as the integer made of their digits and the number of decimals. *)
Definition decimal (s : string) : option (Z * nat) :=
  let body := match Py.strip s with
              | String "-" r => (true, r)
              | String "+" r => (false, r)
              | r => (false, r)
              end in
  match Py.split "." (snd body) with
  | [i] => option_map (fun z => (if fst body then Z.opp z else z, 0)) (Py.digits false 0 i)
  | [i; f] =>
      option_map (fun z => (if fst body then Z.opp z else z, String.length f))
                 (Py.digits false 0 (i ++ f))
  | _ => None
  end.

Definition sample_options : list (string * string) :=
  [("reference", "/db/hg38.fa"); ("refDir", "/db"); ("species", "Homo sapiens");
   ("build", "GRCh38"); ("annovarDir", "/db/annovar"); ("germlineMEI", "none");
   ("targetBins", "none"); ("binSize", "250"); ("noDuplicates", "True");
   ("readFilters", "SMS"); ("minMAPQ", "20"); ("minCLIPPINGlen", "8");
   ("refs", "chr1, chr2,chr3"); ("minClusterSize", "3"); ("maxClusterSize", "500");
   ("BKPdist", "50"); ("minPercOverlap", "70"); ("equalOrientBuffer", "200");
   ("oppositeOrientBuffer", "600"); ("minReads", "4"); ("minNormalReads", "2");
   ("minReadsRegionMQ", "10"); ("maxRegionlowMQ", "0.3"); ("maxRegionSMS", "0.15");
   ("wgsData", "False"); ("blatClip", "True"); ("transductionEnds", "3");
   ("sourceBed", "none"); ("srcFamilies", "L1")].

(** The proxy of a section with these options, where [get] never
    raises. *)
Definition plain (l : list (string * string)) : config_proxy :=
  {| options := l; get_raises := fun _ => None |}.

Definition sample_config : config_proxy := plain sample_options.

(** A proxy with one option changed or added, and without one option; the
    other options answer as before. *)
Definition with_option (k v : string) (config : config_proxy) : config_proxy :=
  {| options :=
       (k, v) :: filter (fun kv => negb (String.eqb (Py.lower (fst kv)) (Py.lower k)))
                        (options config);
     get_raises :=
       fun o => if String.eqb o (Py.lower k) then None else get_raises config o |}.


(** Everything is installed, every directory can be made, the engines
    return; the only configuration file is meiga.ini with section
    [config]. The clock gives [stamps 0], [stamps 1], ... *)
Definition sample_env (config : config_proxy) (stamps : nat -> string)
  : Env (Z * nat) :=
  {| argv0 := "main.py";
     cwd := "/work";
     missing_python_dependencies := [];
     missing_program_dependencies := [];
     missing_db := fun _ _ => [];
     clock := stamps;
     read_error := fun _ => None;
     config_section := fun f => if eq_str f "meiga.ini" then Some config else None;
     makedirs_ok := fun _ => true;
     get_refs := fun _ => inr (VStr "chr1,chr2,chrX");
     engine_init_ok := fun _ => true;
     engine_call_ok := fun _ => true |}.

Definition frozen_clock (n : nat) : string := "20240101120000".

(** The sample environment with a program reported missing, and with a
    database reported missing. *)
Definition sample_env_no_program (config : config_proxy) : Env (Z * nat) :=
  {| argv0 := "main.py";
     cwd := "/work";
     missing_python_dependencies := [];
     missing_program_dependencies := ["bwa"];
     missing_db := fun _ _ => [];
     clock := frozen_clock;
     read_error := fun _ => None;
     config_section := fun f => if eq_str f "meiga.ini" then Some config else None;
     makedirs_ok := fun _ => true;
     get_refs := fun _ => inr (VStr "chr1,chr2,chrX");
     engine_init_ok := fun _ => true;
     engine_call_ok := fun _ => true |}.

Definition sample_env_no_db (config : config_proxy) : Env (Z * nat) :=
  {| argv0 := "main.py";
     cwd := "/work";
     missing_python_dependencies := [];
     missing_program_dependencies := [];
     missing_db := fun _ _ => ["consensusDb.fa"];
     clock := frozen_clock;
     read_error := fun _ => None;
     config_section := fun f => if eq_str f "meiga.ini" then Some config else None;
     makedirs_ok := fun _ => true;
     get_refs := fun _ => inr (VStr "chr1,chr2,chrX");
     engine_init_ok := fun _ => true;
     engine_call_ok := fun _ => true |}.

(** The sample environment with engines whose call() fails. *)
Definition sample_env_engine_fails (config : config_proxy) : Env (Z * nat) :=
  {| argv0 := "main.py";
     cwd := "/work";
     missing_python_dependencies := [];
     missing_program_dependencies := [];
     missing_db := fun _ _ => [];
     clock := frozen_clock;
     read_error := fun _ => None;
     config_section := fun f => if eq_str f "meiga.ini" then Some config else None;
     makedirs_ok := fun _ => true;
     get_refs := fun _ => inr (VStr "chr1,chr2,chrX");
     engine_init_ok := fun _ => true;
     engine_call_ok := fun _ => false |}.

(** The sample environment for a sample without reference names:
    [get_refs] returns the empty text. *)
Definition sample_env_no_refs (config : config_proxy) : Env (Z * nat) :=
  {| argv0 := "main.py";
     cwd := "/work";
     missing_python_dependencies := [];
     missing_program_dependencies := [];
     missing_db := fun _ _ => [];
     clock := frozen_clock;
     read_error := fun _ => None;
     config_section := fun f => if eq_str f "meiga.ini" then Some config else None;
     makedirs_ok := fun _ => true;
     get_refs := fun _ => inr (VStr "");
     engine_init_ok := fun _ => true;
     engine_call_ok := fun _ => true |}.

(** The sample environment where meiga.ini has no section header. *)
Definition sample_env_no_header (config : config_proxy) : Env (Z * nat) :=
  {| argv0 := "main.py";
     cwd := "/work";
     missing_python_dependencies := [];
     missing_program_dependencies := [];
     missing_db := fun _ _ => [];
     clock := frozen_clock;
     read_error :=
       fun f => if eq_str f "meiga.ini"
                then Some (ConfigparserError "MissingSectionHeaderError")
                else None;
     config_section := fun _ => None;
     makedirs_ok := fun _ => true;
     get_refs := fun _ => inr (VStr "chr1,chr2,chrX");
     engine_init_ok := fun _ => true;
     engine_call_ok := fun _ => true |}.

(** The Namespace of [call meiga.ini tumor.bam] run in /work. *)
Definition sample_args : namespace :=
  [("config", VStr "meiga.ini"); ("bam", VStr "tumor.bam"); ("normalBam", VNone);
   ("outDir", VStr "/work"); ("processes", VInt 1); ("debug", VBool false);
   ("predict", VBool false); ("call_tds", VBool false)].

Definition ticking_clock (n : nat) : string :=
  match n with
  | O => "20240101120000"
  | _ => "20240101120001"
  end.


(** ** The options of the configuration file, by the way they are read

    Each pair is an option of the MEIGA-SR section and the key of confDict
    it fills. *)



Definition boolean_fields : list (string * string) :=
  [("noDuplicates", "filterDup"); ("wgsData", "retroTestWGS");
   ("blatClip", "blatClip")].



(** The options read with [None if config.get(k) == 'none' else
    config.get(k)]. *)
Definition sentinel_fields : list (string * string) :=
  [("germlineMEI", "germlineMEI"); ("targetBins", "targetBins");
   ("sourceBed", "srcBed")].

(** The keys of confDict in the order lines 124 to 181 assign them. *)
Definition conf_keys : list string :=
  ["source"; "species"; "build"; "annovarDir"; "germlineMEI"; "processes";
   "debug"; "predict"; "targetBins"; "binSize"; "filterDup"; "readFilters";
   "minMAPQ"; "minCLIPPINGlen"; "targetEvents"; "targetRefs"; "minClusterSize";
   "maxClusterSize"; "maxBkpDist"; "minPercRcplOverlap"; "equalOrientBuffer";
   "oppositeOrientBuffer"; "minReads"; "minNormalReads"; "minNbDISCORDANT";
   "minNbCLIPPING"; "minReadsRegionMQ"; "maxRegionlowMQ"; "maxRegionSMS";
   "retroTestWGS"; "blatClip"; "tdEnds"; "srcBed"; "srcFamilies"; "outDir";
   "logDir"].

(** The words [getboolean] reads as True and as False. *)
Definition true_words : list string := ["1"; "yes"; "true"; "on"].
Definition false_words : list string := ["0"; "no"; "false"; "off"].



(** ** Views of a trace *)

Section Views.
Context {pyfloat : Type}.

(** The events of a trace that [f] selects, in order. *)
Fixpoint collect {B : Type} (f : event pyfloat -> option B)
         (t : list (event pyfloat)) : list B :=
  match t with
  | [] => []
  | e :: r =>
      match f e with
      | Some b => b :: collect f r
      | None => collect f r
      end
  end.

(** Paths handed to [os.makedirs]. *)
Definition created_dirs : list (event pyfloat) -> list pyvalue :=
  collect (fun e => match e with Makedirs p => Some p | _ => None end).

(** Stamps read from the clock. *)
Definition clock_reads : list (event pyfloat) -> list string :=
  collect (fun e => match e with Now stamp => Some stamp | _ => None end).

(** Arguments of the calls of [bamtools.get_refs]. *)
Definition get_refs_calls : list (event pyfloat) -> list pyvalue :=
  collect (fun e => match e with GetRefs b => Some b | _ => None end).

(** Engines constructed. *)
Definition constructions : list (event pyfloat) -> list (event pyfloat) :=
  collect (fun e => match e with Construct _ _ _ _ _ _ _ => Some e | _ => None end).

(** Arguments of the calls of [cd.missing_db]. *)
Definition db_checks : list (event pyfloat) -> list (pyvalue * conf_value pyfloat) :=
  collect (fun e => match e with CheckDb r a => Some (r, a) | _ => None end).

(** Engines whose [call()] was invoked. *)
Definition engine_calls : list (event pyfloat) -> list engine :=
  collect (fun e => match e with CallEngine k => Some k | _ => None end).

(** Configuration files read. *)
Definition config_reads : list (event pyfloat) -> list pyvalue :=
  collect (fun e => match e with ReadConfig f => Some f | _ => None end).

(** The directories made and the log file opened, in the order it
    happened: a path made, or the path of the log file. *)
Definition dirs_and_log : list (event pyfloat) -> list (pyvalue + string) :=
  collect (fun e => match e with
                    | Makedirs p => Some (inl p)
                    | SetupLogger _ f => Some (inr f)
                    | _ => None
                    end).

(** The records [p + str(v) + s] written to the log. *)
Definition logged_values
  : list (event pyfloat) -> list (string * conf_value pyfloat * string) :=
  collect (fun e => match e with
                    | Log (LogStr p v s) => Some (p, v, s)
                    | _ => None
                    end).

(** The log file opened and the records written to it. *)
Definition log_writes : list (event pyfloat) -> list (event pyfloat) :=
  collect (fun e => match e with
                    | SetupLogger _ _ | Log _ => Some e
                    | _ => None
                    end).

(** The records lines 207 and 208 write for a dictionary, latest
    first. *)
Definition item_records (d : conf_dict pyfloat) : list (event pyfloat) :=
  rev (map (fun kv => Log (LogStr (fst kv ++ " => ") (snd kv) "")) d).

(** [post m s Q]: run from state [s], [m] ends in an outcome and a state
    that satisfy [Q]. *)
Definition post {A : Type} (m : M pyfloat A) (s : list (event pyfloat))
           (Q : exn + A -> list (event pyfloat) -> Prop) : Prop :=
  Q (fst (m s)) (snd (m s)).
End Views.

(** ** Properties *)

Section Properties.

Variable pyfloat : Type.
Variable py_float : string -> option pyfloat.

(** *** Rules for running a computation step by step *)

Lemma post_bind (A B : Type) (m : M pyfloat A) (f : A -> M pyfloat B) (s : list (event pyfloat)) Q :
  post m s (fun r s1 => match r with
                        | inl e => Q (inl e) s1
                        | inr a => post (f a) s1 Q
                        end) ->
  post (bind m f) s Q.
Proof.
  unfold post, bind. destruct (m s) as [[e | a] s1]; simpl; auto.
Qed.

Lemma post_ret (A : Type) (a : A) (s : list (event pyfloat)) Q : Q (inr a) s -> post (ret a) s Q.
Proof. auto. Qed.

Lemma post_raise (A : Type) (e : exn) (s : list (event pyfloat)) (Q : exn + A -> list (event pyfloat) -> Prop) :
  Q (inl e) s -> post (raise e) s Q.
Proof. auto. Qed.

Lemma post_emit (ev : event pyfloat) (s : list (event pyfloat)) Q :
  Q (inr tt) (ev :: s) -> post (emit ev) s Q.
Proof. auto. Qed.

Lemma post_lift (A : Type) (r : exn + A) (s : list (event pyfloat)) Q : Q r s -> post (lift r) s Q.
Proof. unfold post, lift. destruct r; auto. Qed.

Lemma post_now (env : Env pyfloat) (s : list (event pyfloat)) Q :
  Q (inr (clock env (length (filter is_now s))))
    (Now (clock env (length (filter is_now s))) :: s) ->
  post (now env) s Q.
Proof. auto. Qed.

Lemma post_weaken (A : Type) (m : M pyfloat A) (s : list (event pyfloat)) (Q Q' : exn + A -> list (event pyfloat) -> Prop) :
  post m s Q -> (forall r s1, Q r s1 -> Q' r s1) -> post m s Q'.
Proof. unfold post. auto. Qed.

Lemma post_run (A : Type) (m : M pyfloat A) (s : list (event pyfloat)) Q :
  post m s Q -> forall r s1, m s = (r, s1) -> Q r s1.
Proof. unfold post. intros H r s1 E. rewrite E in H. exact H. Qed.

Lemma run_post (A : Type) (m : M pyfloat A) (P : exn + A -> list (event pyfloat) -> Prop) :
  post m [] (fun r s => P r (rev s)) -> P (outcome m) (trace m).
Proof. exact (fun H => H). Qed.

Ltac wp_norm :=
  lazy beta iota zeta delta [r_outDir r_logDir r_confDict r_reference r_refDir].

Ltac head_of t :=
  lazymatch t with
  | ?f _ => head_of f
  | _ => t
  end.

(** A scrutinee is replaced by what is known of it, or by its value when
    it computes to one. *)
Ltac wp_known x :=
  first
    [ match goal with
      | H : x = _ |- _ => rewrite H
      end
    | let x' := eval cbn in x in
      let h := head_of x' in
      is_constructor h; change x with x' ].

Ltac wp_step :=
  wp_norm;
  lazymatch goal with
  | |- post (bind _ _) _ _ => apply post_bind
  | |- post (ret _) _ _ => apply post_ret
  | |- post (raise _) _ _ => apply post_raise
  | |- post (emit _) _ _ => apply post_emit
  | |- post (lift (inr _)) _ _ => apply post_lift
  | |- post (lift (inl _)) _ _ => apply post_lift
  | |- post (lift (dict_item _ _)) _ _ =>
      lazy beta iota zeta delta [dict_item dict_get dict_set String.eqb Ascii.eqb Bool.eqb]
  | |- post (lift ?r) _ _ =>
      first [ wp_known r
            | let E := fresh "E" in apply post_lift; destruct r eqn:E ]
  | |- post (now _) _ _ => apply post_now
  | |- post (log_items _) _ _ =>
      lazy beta iota zeta delta [log_items dict_set String.eqb Ascii.eqb Bool.eqb]
  | |- post (call_get_refs _ _) _ _ => unfold call_get_refs
  | |- post (read_config _ _) _ _ => unfold read_config
  | |- post (makedirs _ _) _ _ => unfold makedirs
  | |- post (check_dependencies _) _ _ => unfold check_dependencies
  | |- post (parse _ _) _ _ => unfold parse
  | |- post (check_db _ _ _) _ _ => unfold check_db
  | |- post (execute_caller _ _ _ _ _ _ _ _) _ _ => unfold execute_caller
  | |- post (display_configuration _ _ _ _ _ _ _ _) _ _ => unfold display_configuration
  | |- post (create_configuration _ _ _ _ _ _) _ _ => unfold create_configuration
  | |- post (main _ _ _) _ _ => unfold main
  | |- post (if ?b then _ else _) _ _ =>
      first [ wp_known b | let E := fresh "E" in destruct b eqn:E ]
  | |- post (match ?x with _ => _ end) _ _ =>
      first [ wp_known x | let E := fresh "E" in destruct x eqn:E ]
  end.

Ltac wp := repeat wp_step; wp_norm.

(** *** Traces and dictionaries *)

Lemma collect_app (B : Type) (f : event pyfloat -> option B) (t u : list (event pyfloat)) :
  collect f (t ++ u) = (collect f t ++ collect f u)%list.
Proof.
  induction t as [| e t IH]; simpl; [reflexivity |].
  destruct (f e); simpl; rewrite IH; reflexivity.
Qed.

Lemma collect_rev (B : Type) (f : event pyfloat -> option B) (t : list (event pyfloat)) :
  collect f (rev t) = rev (collect f t).
Proof.
  induction t as [| e t IH]; simpl; [reflexivity |].
  rewrite collect_app, IH. simpl. destruct (f e); simpl; [reflexivity |].
  apply app_nil_r.
Qed.

Lemma in_collect (B : Type) (f : event pyfloat -> option B) (t : list (event pyfloat))
      (e : event pyfloat) (b : B) :
  In e t -> f e = Some b -> In b (collect f t).
Proof.
  induction t as [| e' t IH]; simpl; [tauto |].
  intros [-> | Hin] Hf.
  - rewrite Hf. left. reflexivity.
  - destruct (f e'); [right |]; auto.
Qed.

(** Membership of an event in a trace given in chronological order, read
    on the view [f] of the state the run ended in. *)
Lemma in_trace_view (B : Type) (f : event pyfloat -> option B) (s : list (event pyfloat))
      (e : event pyfloat) (b : B) :
  In e (rev s) -> f e = Some b -> In b (collect f s).
Proof.
  intros Hin Hf. apply in_rev in Hin. exact (in_collect B f s e b Hin Hf).
Qed.

Lemma dict_get_set (V : Type) (d : list (string * V)) (k k' : string) (v : V) :
  dict_get (dict_set d k v) k' = if String.eqb k k' then Some v else dict_get d k'.
Proof.
  induction d as [| [k0 v0] d IH]; simpl.
  - reflexivity.
  - destruct (String.eqb k0 k) eqn:E0; simpl.
    + apply String.eqb_eq in E0. subst k0.
      destruct (String.eqb k k'); reflexivity.
    + destruct (String.eqb k0 k') eqn:E1.
      * apply String.eqb_eq in E1. subst k0.
        rewrite String.eqb_sym in E0. rewrite E0. reflexivity.
      * exact IH.
Qed.

(** *** The argument parser *)

Lemma parse_sub_shape (n : nat) :
  forall sub toks pos ns ns',
    length toks <= n ->
    parsed_shape sub ns ->
    parse_sub sub toks pos ns = Parsed ns' ->
    parsed_shape sub ns' /\
    exists c b, dict_get ns' "config" = Some (VStr c) /\ dict_get ns' "bam" = Some (VStr b).
Proof.
  induction n as [| n IH]; intros sub toks pos ns ns' Hlen Hs Hp.
  - destruct toks; [| simpl in Hlen; lia].
    simpl in Hp. destruct pos as [| c [| b [| ? ?]]]; try discriminate.
    injection Hp as <-. unfold parsed_shape in *. rewrite !dict_get_set. simpl.
    split; [destruct sub; exact Hs | eauto].
  - destruct toks as [| tok rest].
    + apply (IH sub [] pos ns ns'); simpl; [lia | assumption | assumption].
    + simpl in Hlen. simpl in Hp.
      destruct (option_of sub tok) as [[]|] eqn:Eo; try discriminate.
      * destruct rest as [| v rest']; [discriminate |].
        destruct (is_argument v); [| discriminate].
        apply IH in Hp; [assumption | simpl in Hlen; lia |].
        unfold parsed_shape in *. rewrite !dict_get_set. simpl.
        destruct sub; intuition eauto.
      * destruct rest as [| v rest']; [discriminate |].
        destruct (is_argument v); [| discriminate].
        apply IH in Hp; [assumption | simpl in Hlen; lia |].
        unfold parsed_shape in *. rewrite !dict_get_set. simpl.
        destruct sub; intuition eauto.
      * destruct rest as [| v rest']; [discriminate |].
        destruct (is_argument v); [| discriminate].
        destruct (Py.is_ascii v); [| discriminate].
        destruct (Py.int v); [| discriminate].
        apply IH in Hp; [assumption | simpl in Hlen; lia |].
        unfold parsed_shape in *. rewrite !dict_get_set. simpl.
        destruct sub; intuition eauto.
      * apply IH in Hp; [assumption | lia |].
        unfold parsed_shape in *. rewrite !dict_get_set. simpl.
        destruct sub; intuition eauto.
      * assert (sub = Call) as ->.
        { unfold option_of in Eo.
          repeat match type of Eo with
                 | (if ?c then _ else _) = _ => destruct c; try discriminate
                 end.
          first [reflexivity | destruct sub; [reflexivity | discriminate]]. }
        apply IH in Hp; [assumption | lia |].
        unfold parsed_shape in *. rewrite !dict_get_set. simpl.
        intuition eauto.
      * apply IH in Hp; [assumption | lia | assumption].
Qed.

Lemma parse_args_shape (cwd : string) (argv : list string) (ns : namespace) :
  parse_args cwd argv = Parsed ns ->
  (argv = [] /\ ns = []) \/
  exists tok rest sub,
    argv = tok :: rest /\ subcommand_of tok = Some sub /\ parsed_shape sub ns /\
    exists c b, dict_get ns "config" = Some (VStr c) /\ dict_get ns "bam" = Some (VStr b).
Proof.
  destruct argv as [| tok rest]; simpl.
  - intros [= <-]. left. split; reflexivity.
  - intros H. right.
    destruct (String.eqb tok "-h" || String.eqb tok "--help"); [discriminate |].
    destruct (starts_with_dash tok); [discriminate |].
    destruct (subcommand_of tok) as [sub |] eqn:Es; [| discriminate].
    destruct (forallb (modelled_token sub) rest); [| discriminate].
    exists tok, rest, sub. split; [reflexivity |]. split; [exact Es |].
    apply (parse_sub_shape (length rest) sub rest [] (sub_defaults cwd sub) ns);
      [lia | | exact H].
    unfold parsed_shape. destruct sub; simpl; intuition eauto.
Qed.

Lemma subcommand_of_some (tok : string) (sub : subcommand) :
  subcommand_of tok = Some sub ->
  tok = match sub with Call => "call" | CallTds => "call-tds" end.
Proof.
  unfold subcommand_of.
  destruct (String.eqb tok "call") eqn:E1.
  - intros [= <-]. apply String.eqb_eq. exact E1.
  - destruct (String.eqb tok "call-tds") eqn:E2; [| discriminate].
    intros [= <-]. apply String.eqb_eq. exact E2.
Qed.

Lemma option_of_positional (sub : subcommand) (tok : string) :
  starts_with_dash tok = false -> option_of sub tok = None.
Proof.
  intros Hdash. unfold option_of.
  repeat match goal with
         | |- context [String.eqb tok ?o] =>
             let E := fresh "E" in
             destruct (String.eqb tok o) eqn:E;
             [apply String.eqb_eq in E; subst tok; discriminate Hdash |]
         end.
  reflexivity.
Qed.




Lemma call_tds_no_predict (cwd : string) (rest : list string) (ns : namespace) :
  parse_args cwd ("call-tds" :: rest) = Parsed ns ->
  getattr ns "predict" = inl (AttributeError "Namespace" "predict").
Proof.
  intros H. apply parse_args_shape in H.
  destruct H as [[H _] | (tok & rest' & sub & Ha & Hs & Hshape & _)]; [discriminate |].
  injection Ha as <- <-. injection Hs as <-.
  destruct Hshape as (_ & _ & _ & _ & _ & Hp).
  unfold getattr. rewrite Hp. reflexivity.
Qed.

Lemma getattr_some (ns : namespace) (a : string) (v : pyvalue) :
  dict_get ns a = Some v -> getattr ns a = inr v.
Proof. unfold getattr. intros ->. reflexivity. Qed.

Lemma eq_str_true (v : pyvalue) (s : string) : eq_str v s = true -> v = VStr s.
Proof.
  destruct v; try discriminate. simpl. intros H.
  apply String.eqb_eq in H. subst. reflexivity.
Qed.

(** *** The resolver and the logging loop as single steps *)

Ltac prefix_of l s :=
  lazymatch l with
  | s => constr:(@nil (event pyfloat))
  | ?e :: ?l' => let p := prefix_of l' s in constr:(e :: p)
  end.

(** What [create_configuration] adds to the trace: at most one call of
    [get_refs], on the sample it was given and only for the wildcard, and
    readings of the clock. *)
Lemma create_configuration_effects (env : Env pyfloat) (args : namespace)
      (bam processes : pyvalue) (config : config_proxy) (s : list (event pyfloat)) :
  post (create_configuration py_float env args bam processes config) s
       (fun r s1 =>
          exists t,
            s1 = (t ++ s)%list /\
            (forall (B : Type) (f : event pyfloat -> option B),
                (forall b, f (GetRefs b) = None) ->
                (forall stamp, f (Now stamp) = None) ->
                collect f t = []) /\
            (get_refs_calls t = [] \/
             (get_refs_calls t = [bam] /\ config_get config "refs" = inr (VStr "ALL"))) /\
            (forall res, r = inr res -> r_logDir res = r_outDir res ++ "/logs") /\
            (forall res,
                r = inr res ->
                exists debug base,
                  getattr args "debug" = inr debug /\
                  getattr args "outDir" = inr (VStr base) /\
                  if truthy debug
                  then clock_reads t = [clock env (length (filter is_now s))] /\
                       r_outDir res = base ++ "/" ++ clock env (length (filter is_now s))
                  else clock_reads t = [] /\ r_outDir res = base)).
Proof.
  wp.
  all: lazymatch goal with
       | |- exists t, ?l = (t ++ ?s0)%list /\ _ =>
           let p := prefix_of l s0 in exists p
       end.
  all: split; [reflexivity |].
  all: split; [intros B f Hg Hn; cbn [collect]; rewrite ?Hg, ?Hn; reflexivity |].
  all: split;
    [first [ left; reflexivity
           | right; split; [reflexivity | f_equal; apply eq_str_true; assumption] ] |].
  all: split; [intros res [= <-]; reflexivity || discriminate |].
  all: intros res' [= <-] || (intros res' [=]).
  all: do 2 eexists; split; [first [eassumption | reflexivity] |].
  all: match goal with
       | E : as_str ?p = inr ?b |- _ =>
           destruct p; try discriminate E; injection E as ->
       end.
  all: split; [first [eassumption | reflexivity] |].
  all: match goal with
       | E : truthy _ = _ |- _ => rewrite E
       end.
  all: split; reflexivity.
Qed.

Lemma post_create_configuration (env : Env pyfloat) (args : namespace)
      (bam processes : pyvalue) (config : config_proxy) (s : list (event pyfloat)) Q :
  (forall r t,
      fst (create_configuration py_float env args bam processes config s) = r ->
      (forall (B : Type) (f : event pyfloat -> option B),
          (forall b, f (GetRefs b) = None) ->
          (forall stamp, f (Now stamp) = None) ->
          collect f t = []) ->
      (get_refs_calls t = [] \/
       (get_refs_calls t = [bam] /\ config_get config "refs" = inr (VStr "ALL"))) ->
      (forall res, r = inr res -> r_logDir res = r_outDir res ++ "/logs") ->
      (forall res,
          r = inr res ->
          exists debug base,
            getattr args "debug" = inr debug /\
            getattr args "outDir" = inr (VStr base) /\
            if truthy debug
            then clock_reads t = [clock env (length (filter is_now s))] /\
                 r_outDir res = base ++ "/" ++ clock env (length (filter is_now s))
            else clock_reads t = [] /\ r_outDir res = base) ->
      Q r (t ++ s)%list) ->
  post (create_configuration py_float env args bam processes config) s Q.
Proof.
  intros H. pose proof (create_configuration_effects env args bam processes config s) as He.
  unfold post in *.
  destruct (create_configuration py_float env args bam processes config s) as [r s1].
  simpl in *. destruct He as (t & -> & Hf & Hg & Hl & Hc).
  apply H; auto.
Qed.

Lemma log_items_run (d : conf_dict pyfloat) (s : list (event pyfloat)) :
  log_items d s = (inr tt, (item_records d ++ s)%list).
Proof.
  revert s. induction d as [| [k v] d IH]; intros s.
  - reflexivity.
  - unfold item_records in *. cbn [log_items map rev fst snd].
    unfold bind, emit. rewrite IH. rewrite <- app_assoc. reflexivity.
Qed.

Lemma post_log_items (d : conf_dict pyfloat) (s : list (event pyfloat)) Q :
  Q (inr tt) (item_records d ++ s)%list -> post (log_items d) s Q.
Proof. unfold post. rewrite log_items_run. auto. Qed.

Lemma collect_item_records (B : Type) (f : event pyfloat -> option B)
      (d : conf_dict pyfloat) :
  (forall r, f (Log r) = None) -> collect f (item_records d) = [].
Proof.
  intros Hf. unfold item_records. rewrite collect_rev.
  induction d as [| kv d IH]; simpl; [reflexivity |].
  rewrite Hf. exact IH.
Qed.

(** *** What a run of the script does, by its observable effects *)

Ltac wpb_step :=
  lazy beta iota zeta;
  lazymatch goal with
  | |- post (create_configuration _ _ _ _ _ _) _ _ =>
      let r := fresh "r" in
      let t := fresh "t" in
      let Hrun := fresh "Hrun" in
      let Hframe := fresh "Hframe" in
      let Hrefs := fresh "Hrefs" in
      let Hlog := fresh "Hlog" in
      let Hclock := fresh "Hclock" in
      apply post_create_configuration; intros r t Hrun Hframe Hrefs Hlog Hclock;
      destruct r as [? | ?];
      [clear Hclock | specialize (Hlog _ eq_refl); specialize (Hclock _ eq_refl) ]
  | |- post (log_items _) _ _ => apply post_log_items
  | |- post (bind _ _) _ _ => apply post_bind
  | |- post (ret _) _ _ => apply post_ret
  | |- post (raise _) _ _ => apply post_raise
  | |- post (emit _) _ _ => apply post_emit
  | |- post (lift (inr _)) _ _ => apply post_lift
  | |- post (lift (inl _)) _ _ => apply post_lift
  | |- post (lift ?r) _ _ =>
      first [ wp_known r
            | let E := fresh "E" in apply post_lift; destruct r eqn:E ]
  | |- post (now _) _ _ => apply post_now
  | |- post (read_config _ _) _ _ => unfold read_config
  | |- post (makedirs _ _) _ _ => unfold makedirs
  | |- post (check_dependencies _) _ _ => unfold check_dependencies
  | |- post (parse _ _) _ _ => unfold parse
  | |- post (check_db _ _ _) _ _ => unfold check_db
  | |- post (execute_caller _ _ _ _ _ _ _ _) _ _ => unfold execute_caller
  | |- post (display_configuration _ _ _ _ _ _ _ _) _ _ => unfold display_configuration
  | |- post (main _ _ _) _ _ => unfold main
  | |- post (if ?b then _ else _) _ _ =>
      first [ wp_known b | let E := fresh "E" in destruct b eqn:E ]
  | |- post (match ?x with _ => _ end) _ _ =>
      first [ wp_known x | let E := fresh "E" in destruct x eqn:E ]
  end.

Ltac wpb := repeat wpb_step; lazy beta iota zeta.

Ltac norm_collect :=
  repeat first
    [ progress cbn [collect app]
    | rewrite collect_app
    | rewrite collect_item_records by (intros; reflexivity)
    | match goal with
      | Hf : forall (B : Type) (f : event pyfloat -> option B), _ |- _ =>
          rewrite Hf by (intros; reflexivity)
      end ].

Ltac in_state :=
  repeat first [ left; reflexivity | right | apply in_or_app; right ].

Lemma main_effects (env : Env pyfloat) (argv : list string) :
  post (main py_float env argv) []
    (fun r s =>
       (* the engine constructed *)
       (forall kind mode bam normalBam reference refDir conf,
           In (Construct kind mode bam normalBam reference refDir conf) (rev s) ->
           exists s0 ns cfgfile config processes call_tds res,
             parse_args (cwd env) argv = Parsed ns /\
             getattr ns "config" = inr cfgfile /\
             getattr ns "bam" = inr bam /\
             getattr ns "normalBam" = inr normalBam /\
             getattr ns "processes" = inr processes /\
             getattr ns "call_tds" = inr call_tds /\
             config_section env cfgfile = Some config /\
             fst (create_configuration py_float env ns bam processes config s0) = inr res /\
             reference = r_reference res /\
             refDir = r_refDir res /\
             conf = r_confDict res /\
             mode = (if truthy normalBam then "PAIRED" else "SINGLE") /\
             kind = (if truthy call_tds then transduction_caller else MEI_caller) /\
             constructions (rev s)
             = [Construct kind mode bam normalBam reference refDir conf]) /\
       (* the calls of get_refs *)
       (forall b,
           In b (get_refs_calls (rev s)) ->
           exists ns cfgfile config,
             parse_args (cwd env) argv = Parsed ns /\
             getattr ns "config" = inr cfgfile /\
             config_section env cfgfile = Some config /\
             config_get config "refs" = inr (VStr "ALL") /\
             getattr ns "bam" = inr b /\
             get_refs_calls (rev s) = [b])).
Proof.
  wpb.
  all: split.
  all: try (intros xb Hin; revert Hin; unfold get_refs_calls in *;
            rewrite collect_rev; norm_collect;
            try match goal with
                | H : _ \/ _ |- _ => destruct H as [H | [H ?]]; rewrite H
                end;
            cbn [rev app]; intros Hin; try contradiction).
  all: try (intros xk xm xbam xnb xrf xrd xd Hin;
            eapply (in_trace_view _ (fun e : event pyfloat =>
                                       match e with
                                       | Construct _ _ _ _ _ _ _ => Some e
                                       | _ => None
                                       end)) in Hin; [| reflexivity];
            revert Hin; norm_collect; intros Hin; try contradiction).
  all: try (destruct Hin as [<- | []];
            do 3 eexists;
            split; [reflexivity |];
            do 4 (split; [eassumption |]);
            reflexivity).
  all: destruct Hin as [Hin | []]; injection Hin as <- <- <- <- <- <- <-.
  all: do 7 eexists.
  all: split; [reflexivity |].
  all: do 7 (split; [eassumption |]).
  all: do 5 (split; [reflexivity |]).
  all: unfold constructions; rewrite collect_rev; norm_collect; reflexivity.
Qed.

Lemma getattr_inr (ns : namespace) (a : string) (v : pyvalue) :
  getattr ns a = inr v -> dict_get ns a = Some v.
Proof.
  unfold getattr. destruct (dict_get ns a); [intros [= ->]; reflexivity | discriminate].
Qed.

(** The part of [main_effects] on the engine, read on the trace. *)
Lemma main_constructs (env : Env pyfloat) (argv : list string)
      (kind : engine) (mode : string) (bam normalBam reference refDir : pyvalue)
      (conf : conf_dict pyfloat) :
  In (Construct kind mode bam normalBam reference refDir conf)
     (trace (main py_float env argv)) ->
  exists s0 ns cfgfile config processes call_tds res,
    parse_args (cwd env) argv = Parsed ns /\
    getattr ns "config" = inr cfgfile /\
    getattr ns "bam" = inr bam /\
    getattr ns "normalBam" = inr normalBam /\
    getattr ns "processes" = inr processes /\
    getattr ns "call_tds" = inr call_tds /\
    config_section env cfgfile = Some config /\
    fst (create_configuration py_float env ns bam processes config s0) = inr res /\
    reference = r_reference res /\
    refDir = r_refDir res /\
    conf = r_confDict res /\
    mode = (if truthy normalBam then "PAIRED" else "SINGLE") /\
    kind = (if truthy call_tds then transduction_caller else MEI_caller) /\
    constructions (trace (main py_float env argv))
    = [Construct kind mode bam normalBam reference refDir conf].
Proof.
  intros Hin. exact (proj1 (main_effects env argv) _ _ _ _ _ _ _ Hin).
Qed.

Lemma call_not_tds (cwd : string) (rest : list string) (ns : namespace) :
  parse_args cwd ("call" :: rest) = Parsed ns ->
  getattr ns "call_tds" = inr (VBool false).
Proof.
  intros H. apply parse_args_shape in H.
  destruct H as [[H _] | (tok & rest' & sub & Ha & Hs & Hshape & _)]; [discriminate |].
  injection Ha as <- <-. injection Hs as <-.
  destruct Hshape as (_ & _ & _ & _ & Hc & _).
  apply getattr_some. exact Hc.
Qed.

(** The three entries of confDict read from the minClusterSize option. *)
Lemma resolver_min_cluster (env : Env pyfloat) (args : namespace)
      (bam processes : pyvalue) (config : config_proxy) (s : list (event pyfloat))
      (res : resolved pyfloat) :
  fst (create_configuration py_float env args bam processes config s) = inr res ->
  exists v,
    config_getint config "minClusterSize" = inr v /\
    dict_get (r_confDict res) "minClusterSize" = Some (Obj v) /\
    dict_get (r_confDict res) "minNbDISCORDANT" = Some (Obj v) /\
    dict_get (r_confDict res) "minNbCLIPPING" = Some (Obj v).
Proof.
  intros Hrun.
  assert (H : post (create_configuration py_float env args bam processes config) s
                   (fun r _ => forall res,
                        r = inr res ->
                        exists v,
                          config_getint config "minClusterSize" = inr v /\
                          dict_get (r_confDict res) "minClusterSize" = Some (Obj v) /\
                          dict_get (r_confDict res) "minNbDISCORDANT" = Some (Obj v) /\
                          dict_get (r_confDict res) "minNbCLIPPING" = Some (Obj v))).
  { wp.
    all: intros res' [= <-] || (intros res' [=]).
    all: eexists; split; [first [eassumption | reflexivity] |]; repeat split; reflexivity. }
  exact (H res Hrun).
Qed.

(** *** Splitting and joining *)

Lemma split_no_sep (sep : ascii) (x : string) :
  Py.mem_char sep x = false -> Py.split sep x = [x].
Proof.
  induction x as [| c x IH]; simpl; [reflexivity |].
  intros H. apply orb_false_iff in H. destruct H as [Hc Hx].
  rewrite Hc, (IH Hx). reflexivity.
Qed.

Lemma split_piece (sep : ascii) (x rest : string) :
  Py.mem_char sep x = false ->
  Py.split sep (x ++ String sep rest) = x :: Py.split sep rest.
Proof.
  induction x as [| c x IH]; simpl.
  - intros _. rewrite Ascii.eqb_refl. reflexivity.
  - intros H. apply orb_false_iff in H. destruct H as [Hc Hx].
    rewrite Hc, (IH Hx). reflexivity.
Qed.

Lemma split_join (sep : ascii) (names : list string) :
  names <> [] ->
  Forall (fun n => Py.mem_char sep n = false) names ->
  Py.split sep (Py.join (String sep EmptyString) names) = names.
Proof.
  induction names as [| x names IH]; [intros H; contradiction |].
  intros _ Hall. inversion Hall as [| ? ? Hx Hrest]; subst.
  destruct names as [| y names].
  - simpl. apply split_no_sep. exact Hx.
  - change (Py.join (String sep EmptyString) (x :: y :: names))
      with (x ++ String sep (Py.join (String sep EmptyString) (y :: names))).
    rewrite (split_piece sep x _ Hx). f_equal.
    apply IH; [discriminate | exact Hrest].
Qed.

Lemma map_strip_clean (names : list string) :
  Forall clean_name names -> map Py.strip names = names.
Proof.
  induction 1 as [| n names [_ Hn] _ IH]; simpl; [reflexivity |].
  rewrite Hn, IH. reflexivity.
Qed.

Lemma split_strip_names (names : list string) :
  names <> [] -> Forall clean_name names ->
  map Py.strip (Py.split "," (Py.join "," names)) = names.
Proof.
  intros Hne Hall. rewrite (split_join "," names Hne).
  - apply map_strip_clean. exact Hall.
  - eapply Forall_impl; [| exact Hall]. intros n [Hn _]. exact Hn.
Qed.

(** *** What the readers of the proxy return *)

Lemma config_get_inr (config : config_proxy) (k : string) (v : pyvalue) :
  config_get config k = inr v ->
  v = match option_lookup config k with
      | None => VNone
      | Some text => VStr text
      end.
Proof.
  unfold config_get. destruct (option_lookup config k) as [text |].
  - destruct (get_raises config (Py.lower k)); [discriminate |].
    intros [= <-]. reflexivity.
  - intros [= <-]. reflexivity.
Qed.

Lemma config_get_text (config : config_proxy) (k text : string) :
  config_get config k = inr (VStr text) -> option_lookup config k = Some text.
Proof.
  intros H. apply config_get_inr in H.
  destruct (option_lookup config k); [injection H as -> | discriminate H]; reflexivity.
Qed.


Lemma config_getint_inr (config : config_proxy) (k : string) (v : pyvalue) :
  config_getint config k = inr v ->
  match option_lookup config k with
  | None => v = VNone
  | Some text => exists z, Py.int text = Some z /\ v = VInt z
  end.
Proof.
  unfold config_getint, config_get. destruct (option_lookup config k) as [text |].
  - destruct (get_raises config (Py.lower k)); [discriminate |].
    destruct (Py.is_ascii text); [| discriminate].
    destruct (Py.int text) as [z |]; [| discriminate].
    intros [= <-]. exists z. split; reflexivity.
  - intros [= <-]. reflexivity.
Qed.


Lemma split_strip_inr (v p : pyvalue) :
  split_strip v = inr p ->
  exists text, v = VStr text /\ p = VList (map Py.strip (Py.split "," text)).
Proof.
  destruct v; simpl; try discriminate.
  intros [= <-]. eexists. split; reflexivity.
Qed.

(** The target references under the wildcard, on the resolver. *)
Lemma resolver_wildcard (env : Env pyfloat) (args : namespace)
      (bam processes : pyvalue) (config : config_proxy) (s : list (event pyfloat))
      (res : resolved pyfloat) :
  option_lookup config "refs" = Some "ALL" ->
  fst (create_configuration py_float env args bam processes config s) = inr res ->
  exists text,
    get_refs env bam = inr (VStr text) /\
    dict_get (r_confDict res) "targetRefs"
    = Some (Obj (VList (map Py.strip (Py.split "," text)))) /\
    get_refs_calls (snd (create_configuration py_float env args bam processes config s))
    = bam :: get_refs_calls s.
Proof.
  intros Hall Hrun.
  assert (H : post (create_configuration py_float env args bam processes config) s
                   (fun r s1 => forall res,
                        r = inr res ->
                        exists text,
                          get_refs env bam = inr (VStr text) /\
                          dict_get (r_confDict res) "targetRefs"
                          = Some (Obj (VList (map Py.strip (Py.split "," text)))) /\
                          get_refs_calls s1 = bam :: get_refs_calls s)).
  { destruct (config_get config "refs") as [e | refs] eqn:Hget.
    - wp. all: intros res' [=].
    - apply config_get_inr in Hget as Hrefs. rewrite Hall in Hrefs. subst refs.
      wp.
      all: intros res' [= <-] || (intros res' [=]).
      all: match goal with
           | E : split_strip ?v = inr _, G : get_refs _ _ = inr ?v |- _ =>
               apply split_strip_inr in E; destruct E as (text & -> & ->)
           end.
      all: exists text; split; [first [assumption | reflexivity] |]; split; reflexivity. }
  exact (H res Hrun).
Qed.

(** *** Splitting and stripping *)

Lemma split_not_nil (sep : ascii) (s : string) : Py.split sep s <> [].
Proof.
  destruct s as [| c r]; simpl; [discriminate |].
  destruct (Ascii.eqb c sep); [discriminate |].
  destruct (Py.split sep r); discriminate.
Qed.

Lemma join_cons_char (sep : string) (c : ascii) (h : string) (t : list string) :
  Py.join sep (String c h :: t) = String c (Py.join sep (h :: t)).
Proof. destruct t; reflexivity. Qed.

Lemma join_split (sep : ascii) (s : string) :
  Py.join (String sep EmptyString) (Py.split sep s) = s.
Proof.
  induction s as [| c r IH]; simpl; [reflexivity |].
  destruct (Ascii.eqb c sep) eqn:Ec.
  - apply Ascii.eqb_eq in Ec. subst c.
    destruct (Py.split sep r) as [| h t] eqn:Es; [elim (split_not_nil _ _ Es) |].
    change (Py.join (String sep EmptyString) (EmptyString :: h :: t))
      with (String sep (Py.join (String sep EmptyString) (h :: t))).
    rewrite IH. reflexivity.
  - destruct (Py.split sep r) as [| h t] eqn:Es; [elim (split_not_nil _ _ Es) |].
    rewrite join_cons_char, IH. reflexivity.
Qed.

Lemma split_pieces (sep : ascii) (s : string) :
  Forall (fun p => Py.mem_char sep p = false) (Py.split sep s).
Proof.
  induction s as [| c r IH]; simpl.
  - constructor; [reflexivity | constructor].
  - destruct (Ascii.eqb c sep) eqn:Ec.
    + constructor; [reflexivity | exact IH].
    + destruct (Py.split sep r) as [| h t]; simpl.
      * constructor; [simpl; rewrite Ec; reflexivity | constructor].
      * inversion IH as [| ? ? Hh Ht]; subst.
        constructor; [simpl; rewrite Ec, Hh; reflexivity | exact Ht].
Qed.

Lemma split_length (sep : ascii) (s : string) :
  length (Py.split sep s) = S (Py.count_char sep s).
Proof.
  induction s as [| c r IH]; simpl; [reflexivity |].
  destruct (Ascii.eqb c sep); simpl.
  - rewrite IH. reflexivity.
  - destruct (Py.split sep r) as [| h t] eqn:Es; [elim (split_not_nil _ _ Es) |].
    simpl in *. exact IH.
Qed.

Lemma append_assoc (a b c : string) : (a ++ b) ++ c = a ++ b ++ c.
Proof. induction a as [| x a IH]; simpl; [reflexivity | rewrite IH; reflexivity]. Qed.

Lemma take_drop (n : nat) (s : string) : Py.take n s ++ Py.drop n s = s.
Proof.
  revert s. induction n as [| n IH]; intros s; [reflexivity |].
  destruct s as [| c r]; simpl; [reflexivity |]. rewrite IH. reflexivity.
Qed.

Lemma drop_take_app (n : nat) (s t : string) :
  n <= String.length s -> Py.drop n (Py.take n s ++ t) = t.
Proof.
  revert s. induction n as [| n IH]; intros s Hn; [reflexivity |].
  destruct s as [| c r]; simpl in *; [lia |]. apply IH. lia.
Qed.

Lemma drop_length (n : nat) (s : string) :
  String.length (Py.drop n s) <= String.length s.
Proof.
  revert s. induction n as [| n IH]; intros s; simpl; [lia |].
  destruct s as [| c r]; simpl; [lia |]. specialize (IH r). lia.
Qed.

Lemma lstrip_from_drop (k : nat) (r : string) :
  Py.lstrip_from k r = Py.lstrip (Py.drop k r).
Proof.
  revert k. induction r as [| c r IH]; intros k.
  - destruct k; reflexivity.
  - destruct k as [| k]; [reflexivity |]. exact (IH k).
Qed.

Lemma lstrip_cons (c : ascii) (r : string) :
  Py.lstrip (String c r)
  = match Py.space_len (String c r) with
    | O => String c r
    | S k => Py.lstrip (Py.drop k r)
    end.
Proof.
  unfold Py.lstrip at 1. cbn [Py.lstrip_from].
  destruct (Py.space_len (String c r)); [reflexivity | apply lstrip_from_drop].
Qed.

(** The white-space character a string starts with is decided by its
    first bytes. *)
Lemma space_len_prefix (c : ascii) (r : string) (k : nat) :
  Py.space_len (String c r) = S k ->
  k <= String.length r /\
  forall t, Py.space_len (String c (Py.take k r ++ t)) = S k.
Proof.
  unfold Py.space_len. cbv zeta.
  destruct (Py.is_space c) eqn:Ec.
  - intros [= <-]. split; [lia |]. intros t. reflexivity.
  - destruct r as [| d r']; [discriminate |].
    match goal with
    | |- (if ?b then _ else _) = _ -> _ => destruct b eqn:E1
    end.
    + intros [= <-]. split; [simpl; lia |]. intros t.
      cbn [Py.take append]. rewrite E1. reflexivity.
    + destruct r' as [| e r'']; [discriminate |].
      match goal with
      | |- (if ?b then _ else _) = _ -> _ => destruct b eqn:E2; [| discriminate]
      end.
      intros [= <-]. split; [simpl; lia |]. intros t.
      cbn [Py.take append]. rewrite E1, E2. reflexivity.
Qed.

Lemma space_len_app (a b : string) (k : nat) :
  Py.space_len a = S k -> Py.space_len (a ++ b) = S k.
Proof.
  destruct a as [| c r]; [discriminate |]. intros H.
  destruct (space_len_prefix c r k H) as [_ Hp].
  rewrite <- (take_drop k r) at 1. cbn [append]. rewrite append_assoc.
  apply Hp.
Qed.

Lemma all_space_nil (s : string) : Py.lstrip s = "" -> Py.all_space s = true.
Proof. unfold Py.all_space. intros ->. reflexivity. Qed.

Lemma all_space_lstrip (s : string) : Py.all_space s = true -> Py.lstrip s = "".
Proof. unfold Py.all_space. destruct (Py.lstrip s); [reflexivity | discriminate]. Qed.

(** White space in front of a string is skipped by [lstrip]. *)
Lemma lstrip_app (n : nat) :
  forall a b,
    String.length a <= n -> Py.all_space a = true -> Py.lstrip (a ++ b) = Py.lstrip b.
Proof.
  induction n as [| n IH]; intros a b Hn Ha.
  - destruct a; [reflexivity | simpl in Hn; lia].
  - destruct a as [| c r]; [reflexivity |].
    apply all_space_lstrip in Ha. rewrite lstrip_cons in Ha.
    destruct (Py.space_len (String c r)) as [| k] eqn:Ek; [discriminate |].
    destruct (space_len_prefix c r k Ek) as [Hk _].
    cbn [append]. rewrite lstrip_cons.
    change (String c (r ++ b)) with (String c r ++ b).
    rewrite (space_len_app _ b k Ek).
    rewrite <- (take_drop k r) at 1. rewrite append_assoc.
    rewrite (drop_take_app k r _ Hk).
    apply IH; [| apply all_space_nil; exact Ha].
    pose proof (drop_length k r). simpl in Hn. lia.
Qed.

Lemma lstrip_spec_bound (n : nat) :
  forall s,
    String.length s <= n ->
    exists l, s = l ++ Py.lstrip s /\ Py.all_space l = true /\
              Py.no_space_first (Py.lstrip s) = true.
Proof.
  induction n as [| n IH]; intros s Hn.
  - destruct s; [| simpl in Hn; lia]. exists EmptyString. repeat split.
  - destruct s as [| c r]; [exists EmptyString; repeat split |].
    rewrite lstrip_cons.
    destruct (Py.space_len (String c r)) as [| k] eqn:Ek.
    + exists EmptyString. split; [reflexivity |]. split; [reflexivity |].
      unfold Py.no_space_first. rewrite Ek. reflexivity.
    + destruct (space_len_prefix c r k Ek) as [Hk Hp].
      destruct (IH (Py.drop k r)) as (l & Hl & Hs & Hf).
      { pose proof (drop_length k r). simpl in Hn. lia. }
      exists (String c (Py.take k r) ++ l). repeat split.
      * cbn [append]. rewrite append_assoc, <- Hl, take_drop. reflexivity.
      * apply all_space_nil. cbn [append]. rewrite lstrip_cons, Hp.
        rewrite (drop_take_app k r l Hk). apply all_space_lstrip. exact Hs.
      * exact Hf.
Qed.

Lemma lstrip_spec (s : string) :
  exists l, s = l ++ Py.lstrip s /\ Py.all_space l = true /\
            Py.no_space_first (Py.lstrip s) = true.
Proof. apply (lstrip_spec_bound (String.length s)). lia. Qed.

Lemma rstrip_spec (s : string) :
  exists r, s = Py.rstrip s ++ r /\ Py.all_space r = true /\
            Py.no_space_last (Py.rstrip s) = true /\
            (Py.no_space_first s = true -> Py.no_space_first (Py.rstrip s) = true).
Proof.
  induction s as [| c s (r & Hr & Hs & Hl & _)].
  - exists EmptyString. repeat split.
  - cbn [Py.rstrip]. destruct (Py.all_space (String c s)) eqn:Ea.
    + exists (String c s). repeat split. exact Ea.
    + exists r. split; [cbn [append]; rewrite <- Hr; reflexivity |].
      split; [exact Hs |]. split.
      * cbn [Py.no_space_last]. rewrite Hl, andb_true_r.
        destruct (Py.all_space (String c (Py.rstrip s))) eqn:Eb; [| reflexivity].
        exfalso.
        pose proof (lstrip_app _ _ r (Nat.le_refl _) Eb) as Happ.
        cbn [append] in Happ. rewrite <- Hr in Happ.
        rewrite (all_space_lstrip _ Hs) in Happ.
        apply all_space_nil in Happ. congruence.
      * unfold Py.no_space_first. intros H0.
        destruct (Py.space_len (String c (Py.rstrip s))) as [| k] eqn:Ek; [reflexivity |].
        pose proof (space_len_app _ r k Ek) as Happ.
        cbn [append] in Happ. rewrite <- Hr in Happ. rewrite Happ in H0.
        discriminate H0.
Qed.

(** [strip] removes white space at both ends and nothing else. *)
Lemma strip_spec (s : string) :
  exists l r, s = l ++ Py.strip s ++ r /\
              Py.all_space l = true /\ Py.all_space r = true /\
              Py.no_space_first (Py.strip s) = true /\
              Py.no_space_last (Py.strip s) = true.
Proof.
  destruct (lstrip_spec s) as (l & Hl & Hls & Hf).
  destruct (rstrip_spec (Py.lstrip s)) as (r & Hr & Hrs & Hlast & Hfirst).
  exists l, r. unfold Py.strip. rewrite <- Hr.
  repeat split; auto.
Qed.

(** The four comma-separated options, on the resolver. *)
Lemma resolver_comma_lists (env : Env pyfloat) (args : namespace)
      (bam processes : pyvalue) (config : config_proxy) (s : list (event pyfloat))
      (res : resolved pyfloat) :
  fst (create_configuration py_float env args bam processes config s) = inr res ->
  (exists text,
      option_lookup config "readFilters" = Some text /\
      dict_get (r_confDict res) "readFilters"
      = Some (Obj (VList (map Py.strip (Py.split "," text))))) /\
  (exists text,
      option_lookup config "refs" = Some text /\
      (text <> "ALL" ->
       dict_get (r_confDict res) "targetRefs"
       = Some (Obj (VList (map Py.strip (Py.split "," text)))))) /\
  (exists text,
      option_lookup config "transductionEnds" = Some text /\
      dict_get (r_confDict res) "tdEnds"
      = Some (Obj (VList (map Py.strip (Py.split "," text))))) /\
  (exists text,
      option_lookup config "srcFamilies" = Some text /\
      dict_get (r_confDict res) "srcFamilies"
      = Some (Obj (VList (map Py.strip (Py.split "," text))))).
Proof.
  intros Hrun.
  assert (H : post (create_configuration py_float env args bam processes config) s
                (fun r _ => forall res,
                     r = inr res ->
                     (exists text,
                         option_lookup config "readFilters" = Some text /\
                         dict_get (r_confDict res) "readFilters"
                         = Some (Obj (VList (map Py.strip (Py.split "," text))))) /\
                     (exists text,
                         option_lookup config "refs" = Some text /\
                         (text <> "ALL" ->
                          dict_get (r_confDict res) "targetRefs"
                          = Some (Obj (VList (map Py.strip (Py.split "," text)))))) /\
                     (exists text,
                         option_lookup config "transductionEnds" = Some text /\
                         dict_get (r_confDict res) "tdEnds"
                         = Some (Obj (VList (map Py.strip (Py.split "," text))))) /\
                     (exists text,
                         option_lookup config "srcFamilies" = Some text /\
                         dict_get (r_confDict res) "srcFamilies"
                         = Some (Obj (VList (map Py.strip (Py.split "," text))))))).
  { wp.
    all: intros res' [= <-] || (intros res' [=]).
    all: repeat match goal with
                | E : split_strip _ = inr _ |- _ =>
                    apply split_strip_inr in E; destruct E as (? & -> & ->)
                | E : eq_str _ "ALL" = true |- _ => apply eq_str_true in E; subst
                | E : config_get _ _ = inr (VStr _) |- _ => apply config_get_text in E
                end.
    all: split; [eexists; split; [eassumption | reflexivity] |].
    all: split;
      [first [ exists "ALL"; split;
               [assumption | intros Hn; contradiction Hn; reflexivity]
             | eexists; split; [eassumption | intros _; reflexivity] ] |].
    all: split; eexists; split; [eassumption | reflexivity | eassumption | reflexivity]. }
  exact (H res Hrun).
Qed.

Lemma in_constructions (t : list (event pyfloat)) (e : event pyfloat) :
  In e (constructions t) -> In e t.
Proof.
  unfold constructions.
  induction t as [| e' t IH]; simpl; [exact (fun H => H) |].
  destruct e'; simpl; intros H; try (right; exact (IH H)).
  destruct H as [H | H]; [left; exact H | right; exact (IH H)].
Qed.

Lemma in_db_checks (t : list (event pyfloat)) (r : pyvalue) (a : conf_value pyfloat) :
  In (r, a) (db_checks t) -> In (CheckDb r a) t.
Proof.
  unfold db_checks.
  induction t as [| e' t IH]; simpl; [exact (fun H => H) |].
  destruct e'; simpl; intros H; try (right; exact (IH H)).
  destruct H as [H | H]; [left; injection H as -> ->; reflexivity | right; exact (IH H)].
Qed.

(** *** C1 *)

(** C1. The transduction half of the claim fails on the code. The
    call-tds subparser declares no [--predict] argument, so its Namespace
    has no [predict] attribute and line 131 ([confDict['predict'] =
    args.predict]) raises AttributeError: for every environment and every
    call-tds command line the script constructs no engine and never
    reaches its normal end. *)
Theorem C1_call_tds_builds_no_engine (env : Env pyfloat) (rest : list string) :
  constructions (trace (main py_float env ("call-tds" :: rest))) = [] /\
  outcome (main py_float env ("call-tds" :: rest)) <> inr tt.
Proof.
  apply (run_post _ (main py_float env ("call-tds" :: rest))
           (fun r t => constructions t = [] /\ r <> inr tt)).
  repeat (wp_step;
          try match goal with
              | E : parse_args _ _ = Parsed ?n |- _ =>
                  lazymatch goal with
                  | H : getattr n "predict" = _ |- _ => fail
                  | _ => pose proof (call_tds_no_predict _ _ _ E)
                  end
              end).
  all: wp_norm; split; [reflexivity | discriminate].
Qed.

(** *** C2 *)

(** C2. The claim fails on the code. In debug mode the script reads the
    clock twice: at line 102, for the directory it makes at line 106, and
    again at line 174, for the output directory it records, makes with
    its logs subdirectory and logs to. A complete debug run makes the
    directory stamped with the first reading and, apart from it, the
    directory stamped with the second reading and its logs
    subdirectory; the two stamps differ as soon as the clock ticks in
    between. *)
Theorem C2_debug_reads_clock_twice (env : Env pyfloat) (argv : list string)
        (ns : namespace) (base : string) :
  parse_args (cwd env) argv = Parsed ns ->
  dict_get ns "debug" = Some (VBool true) ->
  dict_get ns "outDir" = Some (VStr base) ->
  outcome (main py_float env argv) = inr tt ->
  clock_reads (trace (main py_float env argv)) = [clock env 0; clock env 1] /\
  created_dirs (trace (main py_float env argv))
  = [VStr (base ++ "/" ++ clock env 0);
     VStr (base ++ "/" ++ clock env 1);
     VStr ((base ++ "/" ++ clock env 1) ++ "/logs")].
Proof.
  intros Hparse Hdebug Hout.
  apply getattr_some in Hdebug. apply getattr_some in Hout.
  apply (run_post _ (main py_float env argv)
           (fun r t =>
              r = inr tt ->
              clock_reads t = [clock env 0; clock env 1] /\
              created_dirs t
              = [VStr (base ++ "/" ++ clock env 0);
                 VStr (base ++ "/" ++ clock env 1);
                 VStr ((base ++ "/" ++ clock env 1) ++ "/logs")])).
  wpb.
  all: intros Hr; try discriminate Hr.
  all: destruct Hclock as (debug & base' & Hd & Ho & Hc).
  all: rewrite Hdebug in Hd; injection Hd as <-.
  all: rewrite Hout in Ho; injection Ho as <-.
  all: cbn [truthy] in Hc; destruct Hc as [Hc Hdir].
  all: rewrite Hlog, Hdir.
  all: unfold clock_reads, created_dirs in *.
  all: split; rewrite collect_rev; norm_collect; rewrite ?Hc; reflexivity.
Qed.

(** *** C3 *)




















(** *** C4 *)



(** *** C5 *)

(** C5, as the code has it. With [refs = ALL] the resolver calls
    [get_refs] once, on the primary sample, and splits what it returns at
    commas: the result has to be a text, an object of any other type (a
    list of names, say) ends the resolver with an exception. The target
    references recorded are the pieces of the text between commas, each
    stripped. For a text that joins a non-empty list of names without
    commas and surrounding white space this is that list, same order,
    duplicates kept; for the empty text, which joins no name at all, it is
    the list of one empty name. Over a whole run [get_refs] is called at
    most once, and only when the refs option of the configuration read is
    ALL. *)
Theorem C5_wildcard_refs (env : Env pyfloat) (argv : list string) :
  (forall args bam processes config s,
      option_lookup config "refs" = Some "ALL" ->
      (forall res,
          fst (create_configuration py_float env args bam processes config s) = inr res ->
          exists text,
            get_refs env bam = inr (VStr text) /\
            dict_get (r_confDict res) "targetRefs"
            = Some (Obj (VList (map Py.strip (Py.split "," text)))) /\
            get_refs_calls
              (snd (create_configuration py_float env args bam processes config s))
            = bam :: get_refs_calls s /\
            (forall names,
                names <> [] -> Forall clean_name names -> text = Py.join "," names ->
                dict_get (r_confDict res) "targetRefs" = Some (Obj (VList names))) /\
            (text = "" ->
             dict_get (r_confDict res) "targetRefs" = Some (Obj (VList [""])))) /\
      (forall v,
          get_refs env bam = inr v ->
          (forall text, v <> VStr text) ->
          exists e,
            fst (create_configuration py_float env args bam processes config s) = inl e))
  /\
  (forall b,
      In b (get_refs_calls (trace (main py_float env argv))) ->
      get_refs_calls (trace (main py_float env argv)) = [b] /\
      exists ns cfgfile config,
        parse_args (cwd env) argv = Parsed ns /\
        dict_get ns "config" = Some cfgfile /\
        dict_get ns "bam" = Some b /\
        config_section env cfgfile = Some config /\
        option_lookup config "refs" = Some "ALL").
Proof.
  split.
  - intros args bam processes config s Hall. split.
    + intros res Hrun.
      destruct (resolver_wildcard env args bam processes config s res Hall Hrun)
        as (text & Hg & Ht & Hc).
      exists text. repeat split; try assumption.
      * intros names Hne Hclean ->. rewrite Ht.
        rewrite (split_strip_names names Hne Hclean). reflexivity.
      * intros ->. exact Ht.
    + intros v Hv Hnot.
      destruct (fst (create_configuration py_float env args bam processes config s))
        as [e | res] eqn:Hrun; [exists e; reflexivity | exfalso].
      destruct (resolver_wildcard env args bam processes config s res Hall Hrun)
        as (text & Hg & _).
      rewrite Hv in Hg. injection Hg as ->. exact (Hnot text eq_refl).
  - intros b Hin.
    destruct (proj2 (main_effects env argv) b Hin)
      as (ns & cfgfile & config & Hp & Hc & Hs & Hr & Hb & Hone).
    split; [exact Hone |].
    exists ns, cfgfile, config.
    repeat split; try assumption.
    + apply getattr_inr. exact Hc.
    + apply getattr_inr. exact Hb.
    + apply config_get_text. exact Hr.
Qed.

(** *** C6 *)

(** C6. In every resolved record the four comma-separated options
    (readFilters, refs unless it is ALL, transductionEnds, srcFamilies)
    are present in the file and recorded as the list of the pieces of
    their text between commas, each stripped. Splitting cuts at every
    comma and keeps the pieces in order, empty ones included (joining the
    pieces with commas gives the text back, there is one piece more than
    there are commas); stripping removes white space at both ends only,
    white space being what str.strip() takes for it (a no-break space
    included). The two examples of the claim and one with a no-break space
    are the last three lines. *)
Theorem C6_comma_lists (env : Env pyfloat) (args : namespace)
        (bam processes : pyvalue) (config : config_proxy) (s : list (event pyfloat))
        (res : resolved pyfloat) :
  fst (create_configuration py_float env args bam processes config s) = inr res ->
  (exists text,
      option_lookup config "readFilters" = Some text /\
      dict_get (r_confDict res) "readFilters"
      = Some (Obj (VList (map Py.strip (Py.split "," text))))) /\
  (exists text,
      option_lookup config "refs" = Some text /\
      (text <> "ALL" ->
       dict_get (r_confDict res) "targetRefs"
       = Some (Obj (VList (map Py.strip (Py.split "," text)))))) /\
  (exists text,
      option_lookup config "transductionEnds" = Some text /\
      dict_get (r_confDict res) "tdEnds"
      = Some (Obj (VList (map Py.strip (Py.split "," text))))) /\
  (exists text,
      option_lookup config "srcFamilies" = Some text /\
      dict_get (r_confDict res) "srcFamilies"
      = Some (Obj (VList (map Py.strip (Py.split "," text))))) /\
  (forall text,
      Py.join "," (Py.split "," text) = text /\
      Forall (fun p => Py.mem_char "," p = false) (Py.split "," text) /\
      length (Py.split "," text) = S (Py.count_char "," text)) /\
  (forall piece,
      exists l r,
        piece = l ++ Py.strip piece ++ r /\
        Py.all_space l = true /\ Py.all_space r = true /\
        Py.no_space_first (Py.strip piece) = true /\
        Py.no_space_last (Py.strip piece) = true) /\
  map Py.strip (Py.split "," "chr1, chr2,chr3") = ["chr1"; "chr2"; "chr3"] /\
  map Py.strip (Py.split "," "chr1,chr2,") = ["chr1"; "chr2"; ""] /\
  map Py.strip
      (Py.split "," ("chr1," ++ String "194"%char (String "160"%char "chr2")))
  = ["chr1"; "chr2"].
Proof.
  intros Hrun.
  destruct (resolver_comma_lists env args bam processes config s res Hrun)
    as (H1 & H2 & H3 & H4).
  repeat (split; [assumption |]).
  split.
  { intros text. split; [apply (join_split ",") |].
    split; [apply split_pieces | apply split_length]. }
  split; [exact strip_spec |].
  repeat split; reflexivity.
Qed.

(** *** C7 *)

Lemma truthy_list_false (l : list string) : truthy (VList l) = false -> l = [].
Proof. destruct l; [reflexivity | discriminate]. Qed.

(** C7. When one of the two dependency checks of line 22 reports
    something, the script exits with status 1 and has made no directory and
    written no log. When [missing_db] (line 214) reports something, the
    script exits with status 1 as its very next step; by then it has made
    the output directory and its logs subdirectory and opened the log file
    there, and nothing is undone. *)
Theorem C7_dependency_gates (env : Env pyfloat) (argv : list string) :
  (missing_python_dependencies env <> [] \/ missing_program_dependencies env <> [] ->
   outcome (main py_float env argv) = inl (SystemExit 1) /\
   created_dirs (trace (main py_float env argv)) = [] /\
   log_writes (trace (main py_float env argv)) = [])
  /\
  (forall refDir annovarDir,
      In (CheckDb refDir annovarDir) (trace (main py_float env argv)) ->
      missing_db env refDir annovarDir <> [] ->
      outcome (main py_float env argv) = inl (SystemExit 1) /\
      last (trace (main py_float env argv)) TimeRead = CheckDb refDir annovarDir /\
      exists first out,
        created_dirs (trace (main py_float env argv))
        = [first; VStr out; VStr (out ++ "/logs")] /\
        In (SetupLogger "main" ((out ++ "/logs") ++ "/main.log"))
           (trace (main py_float env argv))).
Proof.
  split.
  - intros Hmiss.
    apply (run_post _ (main py_float env argv)
             (fun r t => r = inl (SystemExit 1) /\ created_dirs t = [] /\ log_writes t = [])).
    unfold main, check_dependencies.
    destruct (missing_python_dependencies env) as [| x l].
    + destruct (missing_program_dependencies env) as [| y l'].
      * exfalso. destruct Hmiss as [H | H]; apply H; reflexivity.
      * wp. repeat split.
    + wp. repeat split.
  - apply (run_post _ (main py_float env argv)
             (fun r t =>
                forall refDir annovarDir,
                  In (CheckDb refDir annovarDir) t ->
                  missing_db env refDir annovarDir <> [] ->
                  r = inl (SystemExit 1) /\
                  last t TimeRead = CheckDb refDir annovarDir /\
                  exists first out,
                    created_dirs t = [first; VStr out; VStr (out ++ "/logs")] /\
                    In (SetupLogger "main" ((out ++ "/logs") ++ "/main.log")) t)).
    wpb.
    all: intros xr xa Hin Hne.
    all: eapply (in_trace_view _ (fun e : event pyfloat =>
                                    match e with
                                    | CheckDb r a => Some (r, a)
                                    | _ => None
                                    end)) in Hin; [| reflexivity].
    all: revert Hin; norm_collect; intros Hin; try contradiction.
    all: destruct Hin as [Hin | []]; injection Hin as <- <-.
    all: try match goal with
             | E : truthy (VList _) = false |- _ =>
                 apply truthy_list_false in E; contradiction
             end.
    all: rewrite Hlog.
    all: split; [reflexivity |]; split; [cbn [rev]; apply last_last |].
    all: do 2 eexists; split;
      [unfold created_dirs; rewrite collect_rev; norm_collect; reflexivity |].
    all: apply -> in_rev; in_state.
Qed.

(** *** C8 *)

(** C8. The mode handed to the engine is PAIRED exactly when --normalBam
    was given with a non-empty path, and SINGLE otherwise (no --normalBam,
    or an empty path); nothing of the configuration file or of the
    environment enters. *)
Theorem C8_mode_from_normal_bam (env : Env pyfloat) (argv : list string)
        (ns : namespace)
        (kind : engine) (mode : string) (bam normalBam reference refDir : pyvalue)
        (conf : conf_dict pyfloat) :
  parse_args (cwd env) argv = Parsed ns ->
  In (Construct kind mode bam normalBam reference refDir conf)
     (trace (main py_float env argv)) ->
  dict_get ns "normalBam" = Some normalBam /\
  (mode = "PAIRED" <-> exists path, normalBam = VStr path /\ path <> "") /\
  (mode = "SINGLE" <-> normalBam = VNone \/ normalBam = VStr "").
Proof.
  intros Hparse Hin.
  destruct (main_constructs _ _ _ _ _ _ _ _ _ Hin)
    as (s0 & ns' & cfgfile & config & processes & call_tds & res & Hp & _ & _ & Hnb
        & _ & _ & _ & _ & _ & _ & _ & Hmode & _).
  rewrite Hparse in Hp. injection Hp as <-.
  apply getattr_inr in Hnb. split; [exact Hnb |].
  apply parse_args_shape in Hparse.
  destruct Hparse as [[_ ->] | (tok & rest & sub & _ & _ & Hshape & _)];
    [discriminate |].
  destruct Hshape as ([Hn | [p Hn]] & _); rewrite Hn in Hnb; injection Hnb as <-.
  - subst mode. simpl. split; split.
    + discriminate.
    + intros (path & [=] & _).
    + intros _. left. reflexivity.
    + reflexivity.
  - subst mode. simpl. destruct (String.eqb p "") eqn:Ep; simpl.
    + apply String.eqb_eq in Ep. subst p. split; split.
      * discriminate.
      * intros (path & [= <-] & Hne). contradiction.
      * intros _. right. reflexivity.
      * reflexivity.
    + apply String.eqb_neq in Ep. split; split.
      * intros _. exists p. split; [reflexivity | exact Ep].
      * reflexivity.
      * discriminate.
      * intros [[=] | [= ->]]. contradiction.
Qed.

(** *** C9 *)

(** C9. Subcommand call with a configuration whose minClusterSize reads as
    the integer z (3 in the scenario of the specification): whenever the
    script constructs an engine it is the standard MEI caller, constructed
    once, and the dictionary it receives has minClusterSize,
    minNbDISCORDANT and minNbCLIPPING all equal to z, the last two being
    read from the minClusterSize option; without --normalBam the mode
    handed over is SINGLE and the normal sample is None. *)
Theorem C9_call_min_cluster_size (env : Env pyfloat) (rest : list string)
        (ns : namespace) (cfgfile : pyvalue) (config : config_proxy)
        (text : string) (z : Z)
        (kind : engine) (mode : string) (bam normalBam reference refDir : pyvalue)
        (conf : conf_dict pyfloat) :
  parse_args (cwd env) ("call" :: rest) = Parsed ns ->
  dict_get ns "config" = Some cfgfile ->
  config_section env cfgfile = Some config ->
  option_lookup config "minClusterSize" = Some text ->
  Py.int text = Some z ->
  In (Construct kind mode bam normalBam reference refDir conf)
     (trace (main py_float env ("call" :: rest))) ->
  kind = MEI_caller /\
  dict_get conf "minClusterSize" = Some (Obj (VInt z)) /\
  dict_get conf "minNbDISCORDANT" = Some (Obj (VInt z)) /\
  dict_get conf "minNbCLIPPING" = Some (Obj (VInt z)) /\
  (dict_get ns "normalBam" = Some VNone -> mode = "SINGLE" /\ normalBam = VNone) /\
  constructions (trace (main py_float env ("call" :: rest)))
  = [Construct kind mode bam normalBam reference refDir conf].
Proof.
  intros Hparse Hcfg Hsec Hopt Hint Hin.
  destruct (main_constructs _ _ _ _ _ _ _ _ _ Hin)
    as (s0 & ns' & cfgfile' & config' & processes & call_tds & res & Hp & Hc & _ & Hnb
        & _ & Hct & Hs & Hrun & _ & _ & Hconf & Hmode & Hkind & Hone).
  rewrite Hparse in Hp. injection Hp as <-.
  apply getattr_inr in Hc. rewrite Hcfg in Hc. injection Hc as <-.
  rewrite Hsec in Hs. injection Hs as <-.
  rewrite (call_not_tds _ _ _ Hparse) in Hct. injection Hct as <-.
  destruct (resolver_min_cluster _ _ _ _ _ _ _ Hrun) as (v & Hv & H1 & H2 & H3).
  apply config_getint_inr in Hv. rewrite Hopt in Hv.
  destruct Hv as (z' & Hz' & ->). rewrite Hint in Hz'. injection Hz' as <-.
  subst conf.
  split; [exact Hkind |].
  do 3 (split; [assumption |]).
  split; [| exact Hone].
  intros Hn. apply getattr_inr in Hnb. rewrite Hn in Hnb. injection Hnb as <-.
  subst mode. split; reflexivity.
Qed.

(** *** C10 *)

(** C10. With no subcommand the parser returns an empty Namespace (the
    subparsers are not required); once the dependency checks have passed,
    the script then stops on the first attribute it reads, [args.config],
    with an uncaught AttributeError, before any directory or log exists. *)
Theorem C10_no_subcommand (env : Env pyfloat) :
  missing_python_dependencies env = [] ->
  missing_program_dependencies env = [] ->
  parse_args (cwd env) [] = Parsed [] /\
  outcome (main py_float env []) = inl (AttributeError "Namespace" "config") /\
  exit_status (outcome (main py_float env [])) = 1%Z /\
  trace (main py_float env [])
  = [CheckPython; CheckPrograms; TimeRead; SetStartMethod "spawn"].
Proof.
  intros Hpy Hprog. split; [reflexivity |].
  apply (run_post _ (main py_float env [])
           (fun r t => r = inl (AttributeError "Namespace" "config") /\
                       exit_status r = 1%Z /\
                       t = [CheckPython; CheckPrograms; TimeRead; SetStartMethod "spawn"])).
  unfold main, check_dependencies. rewrite Hpy, Hprog. simpl truthy.
  wp. repeat split.
Qed.

(** *** Further properties of the resolver *)

(** X1. The three options with the "none" sentinel (germlineMEI,
    targetBins, sourceBed): in every resolved record the field is None when
    the option is missing or its text is exactly none, and the text itself
    otherwise; the comparison is exact, so None or NONE stay strings. *)
Theorem X1_none_sentinel (env : Env pyfloat) (args : namespace)
        (bam processes : pyvalue) (config : config_proxy) (s : list (event pyfloat))
        (res : resolved pyfloat) :
  fst (create_configuration py_float env args bam processes config s) = inr res ->
  forall option field,
    In (option, field) sentinel_fields ->
    dict_get (r_confDict res) field
    = Some (Obj match option_lookup config option with
                | None => VNone
                | Some text => if String.eqb text "none" then VNone else VStr text
                end).
Proof.
  intros Hrun.
  assert (H : post (create_configuration py_float env args bam processes config) s
                (fun r _ => forall res,
                     r = inr res ->
                     Forall (fun kf =>
                               exists v,
                                 get_or_none config (fst kf) = inr v /\
                                 dict_get (r_confDict res) (snd kf) = Some (Obj v))
                            sentinel_fields)).
  { wp.
    all: intros res' [= <-] || (intros res' [=]).
    all: repeat (constructor;
                 [cbn [fst snd]; eexists; split; [eassumption | reflexivity] |]).
    all: constructor. }
  intros option field Hin.
  destruct (proj1 (Forall_forall _ _) (H res Hrun) (option, field) Hin)
    as (v & Hv & Hx).
  cbn [fst snd] in Hv, Hx. rewrite Hx. do 2 f_equal.
  unfold get_or_none in Hv.
  destruct (config_get config option) as [e | w] eqn:Hget; [discriminate |].
  apply config_get_inr in Hget.
  destruct (option_lookup config option) as [text |]; subst w; simpl in Hv.
  - destruct (String.eqb text "none"); congruence.
  - congruence.
Qed.

(** X2. The three boolean options (noDuplicates, wgsData, blatClip) are
    read with getboolean: in every resolved record the field is what
    getboolean returns, which is True or False when the lowered text is one
    of the eight words and None when the option is missing; a text that is
    none of the words in one of the three options makes the resolver end
    with an exception instead of a record. *)
Theorem X2_boolean_options (env : Env pyfloat) (args : namespace)
        (bam processes : pyvalue) (config : config_proxy) (s : list (event pyfloat)) :
  (forall res,
      fst (create_configuration py_float env args bam processes config s) = inr res ->
      forall option field,
        In (option, field) boolean_fields ->
        dict_get (r_confDict res) field
        = Some (Obj match option_lookup config option with
                    | None => VNone
                    | Some text => VBool (mem_str (Py.lower text) true_words)
                    end) /\
        (forall text,
            option_lookup config option = Some text ->
            mem_str (Py.lower text) (true_words ++ false_words) = true)) /\
  (forall option field text,
      In (option, field) boolean_fields ->
      option_lookup config option = Some text ->
      mem_str (Py.lower text) (true_words ++ false_words) = false ->
      exists e,
        fst (create_configuration py_float env args bam processes config s) = inl e).
Proof.
  assert (Hb : forall option v,
             config_getboolean config option = inr v ->
             v = match option_lookup config option with
                 | None => VNone
                 | Some text => VBool (mem_str (Py.lower text) true_words)
                 end /\
             (forall text,
                 option_lookup config option = Some text ->
                 mem_str (Py.lower text) (true_words ++ false_words) = true)).
  { intros option v. unfold config_getboolean, config_get.
    destruct (option_lookup config option) as [text |].
    - destruct (get_raises config (Py.lower option)); [discriminate |].
      change ["1"; "yes"; "true"; "on"] with true_words.
      change ["0"; "no"; "false"; "off"] with false_words.
      destruct (mem_str (Py.lower text) true_words) eqn:Et.
      + intros [= <-]. split; [reflexivity |]. intros t [= <-].
        unfold mem_str in *. rewrite existsb_app, Et. reflexivity.
      + destruct (mem_str (Py.lower text) false_words) eqn:Ef; [| discriminate].
        intros [= <-]. split; [reflexivity |]. intros t [= <-].
        unfold mem_str in *. rewrite existsb_app, Et, Ef. reflexivity.
    - intros [= <-]. split; [reflexivity | discriminate]. }
  assert (H : post (create_configuration py_float env args bam processes config) s
                (fun r _ => forall res,
                     r = inr res ->
                     Forall (fun kf =>
                               exists v,
                                 config_getboolean config (fst kf) = inr v /\
                                 dict_get (r_confDict res) (snd kf) = Some (Obj v))
                            boolean_fields)).
  { wp.
    all: intros res' [= <-] || (intros res' [=]).
    all: repeat (constructor;
                 [cbn [fst snd]; eexists; split; [eassumption | reflexivity] |]).
    all: constructor. }
  split.
  - intros res Hrun option field Hin.
    destruct (proj1 (Forall_forall _ _) (H res Hrun) (option, field) Hin)
      as (v & Hv & Hf).
    cbn [fst snd] in Hv, Hf. destruct (Hb option v Hv) as [-> Hw].
    split; [exact Hf | exact Hw].
  - intros option field text Hin Hl Hbad.
    destruct (fst (create_configuration py_float env args bam processes config s))
      as [e | res] eqn:Hrun; [exists e; reflexivity | exfalso].
    destruct (proj1 (Forall_forall _ _) (H res Hrun) (option, field) Hin)
      as (v & Hv & _).
    cbn [fst] in Hv. destruct (Hb option v Hv) as [_ Hw].
    rewrite (Hw text Hl) in Hbad. discriminate.
Qed.

(** X3. Every resolved record has the same thirty-six keys in the same
    order; its source is the fixed text MEIGA-SR-1.1.0 and its target
    events the fixed pair; debug and predict are the attributes of the
    Namespace, unchanged; outDir and logDir are the directories the script
    goes on to make, the second being the first with /logs appended. *)
Theorem X3_record_layout (env : Env pyfloat) (args : namespace)
        (bam processes : pyvalue) (config : config_proxy) (s : list (event pyfloat))
        (res : resolved pyfloat) :
  fst (create_configuration py_float env args bam processes config s) = inr res ->
  map fst (r_confDict res) = conf_keys /\
  dict_get (r_confDict res) "source" = Some (Obj (VStr "MEIGA-SR-1.1.0")) /\
  dict_get (r_confDict res) "targetEvents"
  = Some (Obj (VList ["DISCORDANT"; "CLIPPING"])) /\
  (exists debug predict,
      dict_get args "debug" = Some debug /\
      dict_get args "predict" = Some predict /\
      dict_get (r_confDict res) "debug" = Some (Obj debug) /\
      dict_get (r_confDict res) "predict" = Some (Obj predict)) /\
  dict_get (r_confDict res) "outDir" = Some (Obj (VStr (r_outDir res))) /\
  dict_get (r_confDict res) "logDir" = Some (Obj (VStr (r_logDir res))) /\
  r_logDir res = r_outDir res ++ "/logs".
Proof.
  intros Hrun.
  assert (H : post (create_configuration py_float env args bam processes config) s
                (fun r _ => forall res,
                     r = inr res ->
                     map fst (r_confDict res) = conf_keys /\
                     dict_get (r_confDict res) "source"
                     = Some (Obj (VStr "MEIGA-SR-1.1.0")) /\
                     dict_get (r_confDict res) "targetEvents"
                     = Some (Obj (VList ["DISCORDANT"; "CLIPPING"])) /\
                     (exists debug predict,
                         getattr args "debug" = inr debug /\
                         getattr args "predict" = inr predict /\
                         dict_get (r_confDict res) "debug" = Some (Obj debug) /\
                         dict_get (r_confDict res) "predict" = Some (Obj predict)) /\
                     dict_get (r_confDict res) "outDir"
                     = Some (Obj (VStr (r_outDir res))) /\
                     dict_get (r_confDict res) "logDir"
                     = Some (Obj (VStr (r_logDir res))) /\
                     r_logDir res = r_outDir res ++ "/logs")).
  { wp.
    all: intros res' [= <-] || (intros res' [=]).
    all: do 3 (split; [reflexivity |]).
    all: split; [| repeat split; reflexivity].
    all: do 2 eexists; repeat split; reflexivity. }
  destruct (H res Hrun) as (H1 & H2 & H3 & (d & p & Hd & Hp & Hd' & Hp') & H5 & H6 & H7).
  repeat (split; [assumption |]).
  split; [| repeat split; assumption].
  exists d, p. repeat split; try assumption; apply getattr_inr; assumption.
Qed.

(** *** Further properties of a run *)

Lemma collect_item_records_str (B : Type) (f : event pyfloat -> option B)
      (d : conf_dict pyfloat) :
  (forall p v s, f (Log (LogStr p v s)) = None) -> collect f (item_records d) = [].
Proof.
  intros Hf. unfold item_records. rewrite collect_rev.
  induction d as [| kv d IH]; simpl; [reflexivity |].
  rewrite Hf. exact IH.
Qed.

Lemma logged_item_records (d : conf_dict pyfloat) :
  logged_values (item_records d)
  = rev (map (fun kv => (fst kv ++ " => ", snd kv, "")) d).
Proof.
  unfold logged_values, item_records. rewrite collect_rev. f_equal.
  induction d as [| kv d IH]; simpl; [reflexivity |].
  rewrite IH. reflexivity.
Qed.

Ltac norm_views :=
  repeat first
    [ progress cbn [collect app]
    | rewrite collect_app
    | rewrite collect_item_records by (intros; reflexivity)
    | rewrite collect_item_records_str by (intros; reflexivity)
    | match goal with
      | Hf : forall (B : Type) (f : event pyfloat -> option B), _ |- _ =>
          rewrite Hf by (intros; reflexivity)
      end ].

(** X4. A complete run without -d never reads the clock, and makes the
    output directory given with -o (or the working directory) twice, at
    lines 106 and 183, then its logs subdirectory: the second makedirs
    relies on exist_ok. *)
Theorem X4_plain_run_directories (env : Env pyfloat) (argv : list string)
        (ns : namespace) (base : string) :
  parse_args (cwd env) argv = Parsed ns ->
  dict_get ns "debug" = Some (VBool false) ->
  dict_get ns "outDir" = Some (VStr base) ->
  outcome (main py_float env argv) = inr tt ->
  clock_reads (trace (main py_float env argv)) = [] /\
  created_dirs (trace (main py_float env argv))
  = [VStr base; VStr base; VStr (base ++ "/logs")].
Proof.
  intros Hparse Hdebug Hout.
  apply getattr_some in Hdebug. apply getattr_some in Hout.
  apply (run_post _ (main py_float env argv)
           (fun r t =>
              r = inr tt ->
              clock_reads t = [] /\
              created_dirs t = [VStr base; VStr base; VStr (base ++ "/logs")])).
  wpb.
  all: intros Hr; try discriminate Hr.
  all: destruct Hclock as (debug & base' & Hd & Ho & Hc).
  all: rewrite Hdebug in Hd; injection Hd as <-.
  all: rewrite Hout in Ho; injection Ho as <-.
  all: cbn [truthy] in Hc; destruct Hc as [Hc Hdir].
  all: rewrite Hlog, Hdir.
  all: unfold clock_reads, created_dirs in *.
  all: split; rewrite collect_rev; norm_views; rewrite ?Hc; reflexivity.
Qed.

(** X5. Whenever anything is written to the log, the script has made
    exactly three directories before opening the log file and none after:
    the one of line 106, the output directory and its logs subdirectory;
    the log file is main.log in that subdirectory. *)
Theorem X5_log_file_after_directories (env : Env pyfloat) (argv : list string) :
  log_writes (trace (main py_float env argv)) <> [] ->
  exists first out,
    dirs_and_log (trace (main py_float env argv))
    = [inl first; inl (VStr out); inl (VStr (out ++ "/logs"));
       inr ((out ++ "/logs") ++ "/main.log")].
Proof.
  apply (run_post _ (main py_float env argv)
           (fun r t =>
              log_writes t <> [] ->
              exists first out,
                dirs_and_log t
                = [inl first; inl (VStr out); inl (VStr (out ++ "/logs"));
                   inr ((out ++ "/logs") ++ "/main.log")])).
  wpb.
  all: unfold log_writes, dirs_and_log; rewrite !collect_rev.
  all: intros Hw.
  all: try (exfalso; apply Hw; norm_views; reflexivity).
  all: clear Hw; rewrite Hlog; do 2 eexists; norm_views; reflexivity.
Qed.

(** X6. A run reaches its normal end (exit status 0) only if both
    dependency checks and the database check reported nothing, one engine
    was constructed and the call() of that same engine returned; the last
    thing it does is to log the elapsed time. *)
Theorem X6_normal_end (env : Env pyfloat) (argv : list string) :
  outcome (main py_float env argv) = inr tt ->
  missing_python_dependencies env = [] /\
  missing_program_dependencies env = [] /\
  last (trace (main py_float env argv)) TimeRead = Log LogFinished /\
  exists kind mode bam normalBam reference refDir conf annovarDir,
    constructions (trace (main py_float env argv))
    = [Construct kind mode bam normalBam reference refDir conf] /\
    engine_calls (trace (main py_float env argv)) = [kind] /\
    engine_init_ok env kind = true /\
    engine_call_ok env kind = true /\
    db_checks (trace (main py_float env argv)) = [(refDir, annovarDir)] /\
    missing_db env refDir annovarDir = [].
Proof.
  apply (run_post _ (main py_float env argv)
           (fun r t =>
              r = inr tt ->
              missing_python_dependencies env = [] /\
              missing_program_dependencies env = [] /\
              last t TimeRead = Log LogFinished /\
              exists kind mode bam normalBam reference refDir conf annovarDir,
                constructions t
                = [Construct kind mode bam normalBam reference refDir conf] /\
                engine_calls t = [kind] /\
                engine_init_ok env kind = true /\
                engine_call_ok env kind = true /\
                db_checks t = [(refDir, annovarDir)] /\
                missing_db env refDir annovarDir = [])).
  wpb.
  all: intros Hr; try discriminate Hr.
  all: repeat match goal with
              | E : truthy (VList _) = false |- _ => apply truthy_list_false in E
              end.
  all: split; [assumption |]; split; [assumption |].
  all: split; [cbn [rev]; apply last_last |].
  all: do 8 eexists.
  all: unfold constructions, engine_calls, db_checks.
  all: split; [rewrite collect_rev; norm_views; reflexivity |].
  all: split; [rewrite collect_rev; norm_views; reflexivity |].
  all: split; [assumption |]; split; [assumption |].
  all: split; [rewrite collect_rev; norm_views; reflexivity | assumption].
Qed.

(** X7. What call() does decides the end of the run: when it raises, the
    exception ends the script (exit status 1) and the elapsed time is not
    logged; the elapsed time is logged only at the normal end. *)
Theorem X7_engine_failure_propagates (env : Env pyfloat) (argv : list string) :
  (forall kind,
      In kind (engine_calls (trace (main py_float env argv))) ->
      engine_call_ok env kind = false ->
      outcome (main py_float env argv) = inl (CollaboratorError "call") /\
      exit_status (outcome (main py_float env argv)) = 1%Z /\
      last (trace (main py_float env argv)) TimeRead = CallEngine kind) /\
  (forall kind,
      In kind (engine_calls (trace (main py_float env argv))) ->
      engine_call_ok env kind = true ->
      outcome (main py_float env argv) = inr tt) /\
  (In (Log LogFinished) (trace (main py_float env argv)) ->
   outcome (main py_float env argv) = inr tt).
Proof.
  apply (run_post _ (main py_float env argv)
           (fun r t =>
              (forall kind,
                  In kind (engine_calls t) ->
                  engine_call_ok env kind = false ->
                  r = inl (CollaboratorError "call") /\
                  exit_status r = 1%Z /\
                  last t TimeRead = CallEngine kind) /\
              (forall kind,
                  In kind (engine_calls t) ->
                  engine_call_ok env kind = true ->
                  r = inr tt) /\
              (In (Log LogFinished) t -> r = inr tt))).
  wpb.
  all: unfold engine_calls; rewrite !collect_rev.
  all: split; [| split].
  all: try (intros xk Hin Hok; apply in_rev in Hin; revert Hin; norm_views;
            intros Hin; try contradiction;
            destruct Hin as [<- | []]; try congruence;
            repeat split; try reflexivity; cbn [rev]; apply last_last).
  all: intros Hin.
  all: eapply (in_trace_view _ (fun e : event pyfloat =>
                                  match e with
                                  | Log LogFinished => Some tt
                                  | _ => None
                                  end)) in Hin; [| reflexivity].
  all: revert Hin; norm_views; intros Hin; try contradiction; reflexivity.
Qed.

(** X8. A configuration file the parser cannot parse stops the script
    at line 118 with the exception that read() raises; a file it can parse
    (or skips, because it is missing or cannot be opened) but that gives no
    MEIGA-SR section stops it at line 119 with KeyError, exit status 1. In
    both cases the directory of line 106 has been made by then, nothing
    else, and no log exists. *)
Theorem X8_missing_section (env : Env pyfloat) (argv : list string) (file : pyvalue) :
  In file (config_reads (trace (main py_float env argv))) ->
  read_error env file <> None \/ config_section env file = None ->
  outcome (main py_float env argv)
  = inl match read_error env file with
        | Some e => e
        | None => KeyError "MEIGA-SR"
        end /\
  (read_error env file = None -> exit_status (outcome (main py_float env argv)) = 1%Z) /\
  log_writes (trace (main py_float env argv)) = [] /\
  last (trace (main py_float env argv)) TimeRead = ReadConfig file /\
  exists dir, created_dirs (trace (main py_float env argv)) = [dir].
Proof.
  apply (run_post _ (main py_float env argv)
           (fun r t =>
              In file (config_reads t) ->
              read_error env file <> None \/ config_section env file = None ->
              r = inl match read_error env file with
                      | Some e => e
                      | None => KeyError "MEIGA-SR"
                      end /\
              (read_error env file = None -> exit_status r = 1%Z) /\
              log_writes t = [] /\
              last t TimeRead = ReadConfig file /\
              exists dir, created_dirs t = [dir])).
  wpb.
  all: unfold config_reads, log_writes, created_dirs; rewrite !collect_rev.
  all: intros Hin Hor; apply in_rev in Hin; revert Hin; norm_views;
    intros Hin; try contradiction.
  all: destruct Hin as [<- | []].
  all: try (exfalso; destruct Hor as [Hor | Hor]; congruence).
  all: repeat match goal with
              | E : read_error _ _ = _ |- _ => rewrite E; clear E
              end.
  all: split; [reflexivity |]; split; [intros; first [reflexivity | discriminate] |].
  all: split; [reflexivity |]; split; [reflexivity |].
  all: eexists; reflexivity.
Qed.

(** X9. The engine is constructed only after missing_db has found
    nothing, and it was asked about the very reference directory the
    engine receives and the annovarDir of the dictionary the engine
    receives. *)
Theorem X9_engine_after_database_check (env : Env pyfloat) (argv : list string)
        (kind : engine) (mode : string) (bam normalBam reference refDir : pyvalue)
        (conf : conf_dict pyfloat) :
  In (Construct kind mode bam normalBam reference refDir conf)
     (trace (main py_float env argv)) ->
  exists annovarDir,
    dict_get conf "annovarDir" = Some annovarDir /\
    db_checks (trace (main py_float env argv)) = [(refDir, annovarDir)] /\
    missing_db env refDir annovarDir = [].
Proof.
  apply (run_post _ (main py_float env argv)
           (fun r t =>
              In (Construct kind mode bam normalBam reference refDir conf) t ->
              exists annovarDir,
                dict_get conf "annovarDir" = Some annovarDir /\
                db_checks t = [(refDir, annovarDir)] /\
                missing_db env refDir annovarDir = [])).
  wpb.
  all: intros Hin.
  all: eapply (in_trace_view _ (fun e : event pyfloat =>
                                  match e with
                                  | Construct _ _ _ _ _ _ _ => Some e
                                  | _ => None
                                  end)) in Hin; [| reflexivity].
  all: revert Hin; norm_views; intros Hin; try contradiction.
  all: destruct Hin as [Hin | []]; injection Hin as <- <- <- <- <- <- <-.
  all: eexists; split;
    [match goal with
     | E : dict_item _ _ = inr _ |- _ =>
         unfold dict_item in E;
         destruct (dict_get (r_confDict _) "annovarDir"); [| discriminate E];
         injection E as ->; reflexivity
     end |].
  all: split; [unfold db_checks; rewrite collect_rev; norm_views; reflexivity |].
  all: apply truthy_list_false; assumption.
Qed.

(** X10. Before the engine is constructed the log has received, in this
    order, the normal sample, the number of processes asked for on the
    command line and one record per entry of the dictionary the engine
    receives, entry after entry in the order of the dictionary. *)
Theorem X10_configuration_logged_in_order (env : Env pyfloat) (argv : list string)
        (kind : engine) (mode : string) (bam normalBam reference refDir : pyvalue)
        (conf : conf_dict pyfloat) :
  In (Construct kind mode bam normalBam reference refDir conf)
     (trace (main py_float env argv)) ->
  exists ns processes,
    parse_args (cwd env) argv = Parsed ns /\
    dict_get ns "processes" = Some processes /\
    logged_values (trace (main py_float env argv))
    = ("normalBam: ", Obj normalBam, "")
        :: ("processes: ", Obj processes, nl ++ nl)
        :: map (fun kv => (fst kv ++ " => ", snd kv, "")) conf.
Proof.
  intros Hin.
  destruct (main_constructs _ _ _ _ _ _ _ _ _ Hin)
    as (s0 & ns & cfgfile & config & processes & call_tds & res & Hparse & _ & _ & _
        & Hproc & _).
  exists ns, processes.
  split; [exact Hparse |]. split; [apply getattr_inr; exact Hproc |].
  revert Hin. clear s0 cfgfile config call_tds res.
  apply (run_post _ (main py_float env argv)
           (fun r t =>
              In (Construct kind mode bam normalBam reference refDir conf) t ->
              logged_values t
              = ("normalBam: ", Obj normalBam, "")
                  :: ("processes: ", Obj processes, nl ++ nl)
                  :: map (fun kv => (fst kv ++ " => ", snd kv, "")) conf)).
  wpb.
  all: intros Hin.
  all: eapply (in_trace_view _ (fun e : event pyfloat =>
                                  match e with
                                  | Construct _ _ _ _ _ _ _ => Some e
                                  | _ => None
                                  end)) in Hin; [| reflexivity].
  all: revert Hin; norm_views; intros Hin; try contradiction.
  all: destruct Hin as [Hin | []]; injection Hin as <- <- <- <- <- <- <-.
  all: unfold logged_values; rewrite collect_rev.
  all: repeat first [ progress cbn [collect app]
                    | rewrite collect_app
                    | match goal with
                      | Hf : forall (B : Type) (f : event pyfloat -> option B), _ |- _ =>
                          rewrite Hf by (intros; reflexivity)
                      end ].
  all: fold (@logged_values pyfloat); rewrite logged_item_records.
  all: rewrite rev_app_distr, rev_involutive; reflexivity.
Qed.

(** X12. The Namespace a subparser returns has config and bam as
    strings, normalBam None or a string, outDir a string, processes an
    integer, debug a boolean and call_tds telling the subcommand; predict
    is a boolean for call and is absent for call-tds. *)
Theorem X12_namespace_attributes (cwd : string) (tok : string) (rest : list string)
        (ns : namespace) :
  parse_args cwd (tok :: rest) = Parsed ns ->
  exists sub,
    tok = match sub with Call => "call" | CallTds => "call-tds" end /\
    (exists config bam,
        dict_get ns "config" = Some (VStr config) /\
        dict_get ns "bam" = Some (VStr bam)) /\
    (dict_get ns "normalBam" = Some VNone \/
     exists path, dict_get ns "normalBam" = Some (VStr path)) /\
    (exists out, dict_get ns "outDir" = Some (VStr out)) /\
    (exists n, dict_get ns "processes" = Some (VInt n)) /\
    (exists d, dict_get ns "debug" = Some (VBool d)) /\
    dict_get ns "call_tds"
    = Some (VBool match sub with CallTds => true | Call => false end) /\
    match sub with
    | Call => exists p, dict_get ns "predict" = Some (VBool p)
    | CallTds => dict_get ns "predict" = None
    end.
Proof.
  intros Hparse.
  destruct (parse_args_shape _ _ _ Hparse)
    as [[[=] _] | (tok' & rest' & sub & [= <- <-] & Hsub & Hshape & Hcb)].
  exists sub. split; [apply subcommand_of_some; exact Hsub |].
  split; [exact Hcb | exact Hshape].
Qed.

(** X13. call with a configuration file and a bam and no option: the
    defaults of lines 64 to 68 apply. A complete run reads that
    configuration file, never reads the clock, works in the current
    working directory (made twice, then its logs subdirectory), and
    builds one MEI_caller in SINGLE mode on that bam with no normal bam. *)
Theorem X13_call_without_options (env : Env pyfloat) (config bam : string) :
  starts_with_dash config = false ->
  starts_with_dash bam = false ->
  outcome (main py_float env ["call"; config; bam]) = inr tt ->
  config_reads (trace (main py_float env ["call"; config; bam])) = [VStr config] /\
  clock_reads (trace (main py_float env ["call"; config; bam])) = [] /\
  created_dirs (trace (main py_float env ["call"; config; bam]))
  = [VStr (cwd env); VStr (cwd env); VStr (cwd env ++ "/logs")] /\
  exists reference refDir conf,
    constructions (trace (main py_float env ["call"; config; bam]))
    = [Construct MEI_caller "SINGLE" (VStr bam) VNone reference refDir conf].
Proof.
  intros Hconfig Hbam.
  assert (Hparse : parse_args (cwd env) ["call"; config; bam]
                   = Parsed [("config", VStr config); ("bam", VStr bam);
                             ("normalBam", VNone); ("outDir", VStr (cwd env));
                             ("processes", VInt 1); ("debug", VBool false);
                             ("predict", VBool false); ("call_tds", VBool false)]).
  { change (parse_args (cwd env) ["call"; config; bam])
      with (if forallb (modelled_token Call) [config; bam]
            then parse_sub Call [config; bam] [] (sub_defaults (cwd env) Call)
            else NotModelled).
    unfold forallb, modelled_token, is_argument. rewrite Hconfig, Hbam.
    cbn [negb orb andb].
    cbn [parse_sub]. rewrite (option_of_positional Call config Hconfig).
    cbn [parse_sub]. rewrite (option_of_positional Call bam Hbam).
    reflexivity. }
  remember [("config", VStr config); ("bam", VStr bam);
            ("normalBam", VNone); ("outDir", VStr (cwd env));
            ("processes", VInt 1); ("debug", VBool false);
            ("predict", VBool false); ("call_tds", VBool false)] as ns eqn:Hns.
  assert (Hc : getattr ns "config" = inr (VStr config)) by (subst ns; reflexivity).
  assert (Hb : getattr ns "bam" = inr (VStr bam)) by (subst ns; reflexivity).
  assert (Hn : getattr ns "normalBam" = inr VNone) by (subst ns; reflexivity).
  assert (Ho : getattr ns "outDir" = inr (VStr (cwd env))) by (subst ns; reflexivity).
  assert (Hp : getattr ns "processes" = inr (VInt 1)) by (subst ns; reflexivity).
  assert (Hd : getattr ns "debug" = inr (VBool false)) by (subst ns; reflexivity).
  assert (Ht : getattr ns "call_tds" = inr (VBool false)) by (subst ns; reflexivity).
  clear Hns.
  apply (run_post _ (main py_float env ["call"; config; bam])
           (fun r t =>
              r = inr tt ->
              config_reads t = [VStr config] /\
              clock_reads t = [] /\
              created_dirs t
              = [VStr (cwd env); VStr (cwd env); VStr (cwd env ++ "/logs")] /\
              exists reference refDir conf,
                constructions t
                = [Construct MEI_caller "SINGLE" (VStr bam) VNone
                             reference refDir conf])).
  wpb.
  all: intros Hr; try discriminate Hr.
  destruct Hclock as (dbg & base & Hd' & Ho' & Hif).
  rewrite Hd in Hd'. injection Hd' as <-.
  rewrite Ho in Ho'. injection Ho' as <-.
  cbn [truthy] in Hif. destruct Hif as [Hcl Hout].
  rewrite Hlog, Hout.
  unfold config_reads, clock_reads, created_dirs, constructions in *.
  split; [rewrite collect_rev; norm_views; reflexivity |].
  split; [rewrite collect_rev; norm_views; rewrite ?Hcl; reflexivity |].
  split; [rewrite collect_rev; norm_views; reflexivity |].
  do 3 eexists. rewrite collect_rev. norm_views. reflexivity.
Qed.

End Properties.

(** ** Sample runs *)

(** The run of [call-tds meiga.ini tumor.bam]: it reads the configuration
    file and stops at line 131. *)
Example call_tds_sample_run :
  outcome (main decimal (sample_env sample_config frozen_clock)
                ["call-tds"; "meiga.ini"; "tumor.bam"])
  = inl (AttributeError "Namespace" "predict") /\
  trace (main decimal (sample_env sample_config frozen_clock)
              ["call-tds"; "meiga.ini"; "tumor.bam"])
  = [CheckPython; CheckPrograms; TimeRead; SetStartMethod "spawn";
     Makedirs (VStr "/work"); ReadConfig (VStr "meiga.ini")].
Proof. split; vm_compute; reflexivity. Qed.

(** A debug run over a clock that ticks between lines 102 and 174: two
    stamped directories, logs under the second one only. *)
Lemma C2_witness :
  clock_reads (trace (main decimal (sample_env sample_config ticking_clock)
                           ["call"; "-d"; "meiga.ini"; "tumor.bam"]))
  = ["20240101120000"; "20240101120001"] /\
  created_dirs (trace (main decimal (sample_env sample_config ticking_clock)
                            ["call"; "-d"; "meiga.ini"; "tumor.bam"]))
  = [VStr "/work/20240101120000"; VStr "/work/20240101120001";
     VStr "/work/20240101120001/logs"].
Proof.
  let r := eval vm_compute in (parse_args "/work" ["call"; "-d"; "meiga.ini"; "tumor.bam"]) in
  lazymatch r with
  | Parsed ?ns =>
      apply (C2_debug_reads_clock_twice _ decimal
               (sample_env sample_config ticking_clock)
               ["call"; "-d"; "meiga.ini"; "tumor.bam"] ns "/work")
  end.
  - reflexivity.
  - reflexivity.
  - reflexivity.
  - vm_compute. reflexivity.
Defined.





Lemma C5_witness :
  exists res,
    fst (create_configuration decimal
           (sample_env (with_option "refs" "ALL" sample_config) frozen_clock)
           sample_args (VStr "tumor.bam") (VInt 1)
           (with_option "refs" "ALL" sample_config) []) = inr res /\
    dict_get (r_confDict res) "targetRefs" = Some (Obj (VList ["chr1"; "chr2"; "chrX"])).
Proof.
  let r := eval vm_compute in
    (fst (create_configuration decimal
            (sample_env (with_option "refs" "ALL" sample_config) frozen_clock)
            sample_args (VStr "tumor.bam") (VInt 1)
            (with_option "refs" "ALL" sample_config) [])) in
  lazymatch r with
  | inr ?res =>
      exists res;
      assert (Hrun : fst (create_configuration decimal
                 (sample_env (with_option "refs" "ALL" sample_config) frozen_clock)
                 sample_args (VStr "tumor.bam") (VInt 1)
                 (with_option "refs" "ALL" sample_config) []) = inr res)
        by (vm_compute; reflexivity)
  end.
  split; [exact Hrun |].
  destruct (proj1 (proj1 (C5_wildcard_refs _ decimal
                            (sample_env (with_option "refs" "ALL" sample_config)
                                        frozen_clock) [])
                     sample_args (VStr "tumor.bam") (VInt 1)
                     (with_option "refs" "ALL" sample_config) [] eq_refl)
              _ Hrun)
    as (text & Hget & _ & _ & Hnames & _).
  apply Hnames.
  - discriminate.
  - repeat constructor.
  - injection Hget as <-. reflexivity.
Defined.

(** A sample without any reference name: [get_refs] returns the empty
    text, the join of no name at all, and the engine receives the list of
    one empty name, not the empty list. *)
Lemma C5_counterexample :
  get_refs (sample_env_no_refs (with_option "refs" "ALL" sample_config))
           (VStr "tumor.bam")
  = inr (VStr (Py.join "," [])) /\
  outcome (main decimal (sample_env_no_refs (with_option "refs" "ALL" sample_config))
                ["call"; "meiga.ini"; "tumor.bam"]) = inr tt /\
  exists kind mode bam normalBam reference refDir conf,
    constructions
      (trace (main decimal (sample_env_no_refs (with_option "refs" "ALL" sample_config))
                   ["call"; "meiga.ini"; "tumor.bam"]))
    = [Construct kind mode bam normalBam reference refDir conf] /\
    dict_get conf "targetRefs" = Some (Obj (VList [""])).
Proof.
  split; [reflexivity |]. split; [vm_compute; reflexivity |].
  let c := eval vm_compute in
    (constructions
       (trace (main decimal
                 (sample_env_no_refs (with_option "refs" "ALL" sample_config))
                 ["call"; "meiga.ini"; "tumor.bam"]))) in
  lazymatch c with
  | [Construct ?k ?m ?b ?nb ?rf ?rd ?d] => exists k, m, b, nb, rf, rd, d
  end.
  split; vm_compute; reflexivity.
Qed.

Lemma C6_witness :
  exists res,
    fst (create_configuration decimal (sample_env sample_config frozen_clock)
           sample_args (VStr "tumor.bam") (VInt 1) sample_config []) = inr res /\
    dict_get (r_confDict res) "targetRefs" = Some (Obj (VList ["chr1"; "chr2"; "chr3"])).
Proof.
  let r := eval vm_compute in
    (fst (create_configuration decimal (sample_env sample_config frozen_clock)
            sample_args (VStr "tumor.bam") (VInt 1) sample_config [])) in
  lazymatch r with
  | inr ?res =>
      exists res;
      assert (Hrun : fst (create_configuration decimal
                 (sample_env sample_config frozen_clock)
                 sample_args (VStr "tumor.bam") (VInt 1) sample_config []) = inr res)
        by (vm_compute; reflexivity)
  end.
  split; [exact Hrun |].
  destruct (C6_comma_lists _ decimal _ _ _ _ _ _ _ Hrun) as (_ & (text & Hl & Ht) & _).
  injection Hl as <-. apply Ht. discriminate.
Defined.

Lemma C7_witness :
  (outcome (main decimal (sample_env_no_program sample_config)
                 ["call"; "meiga.ini"; "tumor.bam"]) = inl (SystemExit 1) /\
   created_dirs (trace (main decimal (sample_env_no_program sample_config)
                              ["call"; "meiga.ini"; "tumor.bam"])) = [] /\
   log_writes (trace (main decimal (sample_env_no_program sample_config)
                            ["call"; "meiga.ini"; "tumor.bam"])) = []) /\
  (outcome (main decimal (sample_env_no_db sample_config)
                 ["call"; "meiga.ini"; "tumor.bam"]) = inl (SystemExit 1) /\
   last (trace (main decimal (sample_env_no_db sample_config)
                      ["call"; "meiga.ini"; "tumor.bam"])) TimeRead
   = CheckDb (VStr "/db") (Obj (VStr "/db/annovar")) /\
   exists first out,
     created_dirs (trace (main decimal (sample_env_no_db sample_config)
                                ["call"; "meiga.ini"; "tumor.bam"]))
     = [first; VStr out; VStr (out ++ "/logs")] /\
     In (SetupLogger "main" ((out ++ "/logs") ++ "/main.log"))
        (trace (main decimal (sample_env_no_db sample_config)
                     ["call"; "meiga.ini"; "tumor.bam"]))).
Proof.
  split.
  - apply (proj1 (C7_dependency_gates _ decimal (sample_env_no_program sample_config)
                    ["call"; "meiga.ini"; "tumor.bam"])).
    right. discriminate.
  - apply (proj2 (C7_dependency_gates _ decimal (sample_env_no_db sample_config)
                    ["call"; "meiga.ini"; "tumor.bam"])).
    + apply in_db_checks. vm_compute. left. reflexivity.
    + discriminate.
Defined.

Lemma C8_witness :
  exists ns kind bam reference refDir conf,
    dict_get ns "normalBam" = Some (VStr "normal.bam") /\
    ("PAIRED" = "PAIRED" <->
     exists path, VStr "normal.bam" = VStr path /\ path <> "") /\
    ("PAIRED" = "SINGLE" <->
     VStr "normal.bam" = VNone \/ VStr "normal.bam" = VStr "") /\
    In (Construct kind "PAIRED" bam (VStr "normal.bam") reference refDir conf)
       (trace (main decimal (sample_env sample_config frozen_clock)
                    ["call"; "--normalBam"; "normal.bam"; "meiga.ini"; "tumor.bam"])).
Proof.
  let r := eval vm_compute in
    (parse_args "/work" ["call"; "--normalBam"; "normal.bam"; "meiga.ini"; "tumor.bam"]) in
  lazymatch r with
  | Parsed ?ns => exists ns
  end.
  let c := eval vm_compute in
    (constructions
       (trace (main decimal (sample_env sample_config frozen_clock)
                    ["call"; "--normalBam"; "normal.bam"; "meiga.ini"; "tumor.bam"]))) in
  lazymatch c with
  | [Construct ?k _ ?b _ ?rf ?rd ?d] => exists k, b, rf, rd, d
  end.
  match goal with
  | |- _ /\ _ /\ _ /\ ?P =>
      assert (Hin : P)
        by (apply in_constructions; vm_compute; left; reflexivity)
  end.
  match goal with
  | |- dict_get ?ns _ = _ /\ _ =>
      pose proof (C8_mode_from_normal_bam _ decimal
                    (sample_env sample_config frozen_clock)
                    ["call"; "--normalBam"; "normal.bam"; "meiga.ini"; "tumor.bam"]
                    ns _ _ _ _ _ _ _ eq_refl Hin) as (H1 & H2 & H3)
  end.
  repeat split; try assumption; try apply H2; try apply H3.
Defined.

Lemma C9_witness :
  exists kind mode bam normalBam reference refDir conf,
    kind = MEI_caller /\
    dict_get conf "minClusterSize" = Some (Obj (VInt 3)) /\
    dict_get conf "minNbDISCORDANT" = Some (Obj (VInt 3)) /\
    dict_get conf "minNbCLIPPING" = Some (Obj (VInt 3)) /\
    (dict_get sample_args "normalBam" = Some VNone ->
     mode = "SINGLE" /\ normalBam = VNone) /\
    constructions (trace (main decimal (sample_env sample_config frozen_clock)
                               ["call"; "meiga.ini"; "tumor.bam"]))
    = [Construct kind mode bam normalBam reference refDir conf].
Proof.
  let c := eval vm_compute in
    (constructions (trace (main decimal (sample_env sample_config frozen_clock)
                                ["call"; "meiga.ini"; "tumor.bam"]))) in
  lazymatch c with
  | [Construct ?k ?m ?b ?nb ?rf ?rd ?d] => exists k, m, b, nb, rf, rd, d
  end.
  apply (C9_call_min_cluster_size _ decimal (sample_env sample_config frozen_clock)
           ["meiga.ini"; "tumor.bam"] sample_args (VStr "meiga.ini") sample_config
           "3" 3%Z).
  - reflexivity.
  - reflexivity.
  - reflexivity.
  - reflexivity.
  - reflexivity.
  - apply in_constructions. vm_compute. left. reflexivity.
Defined.

Lemma C10_witness :
  outcome (main decimal (sample_env sample_config frozen_clock) [])
  = inl (AttributeError "Namespace" "config").
Proof.
  exact (proj1 (proj2 (C10_no_subcommand _ decimal (sample_env sample_config frozen_clock)
                         eq_refl eq_refl))).
Defined.

(** ** Sample runs for the further properties *)

Lemma X1_witness :
  exists res,
    fst (create_configuration decimal
           (sample_env (with_option "targetBins" "/db/bins.bed" sample_config)
                       frozen_clock)
           sample_args (VStr "tumor.bam") (VInt 1)
           (with_option "targetBins" "/db/bins.bed" sample_config) []) = inr res /\
    dict_get (r_confDict res) "srcBed" = Some (Obj VNone) /\
    dict_get (r_confDict res) "targetBins" = Some (Obj (VStr "/db/bins.bed")).
Proof.
  let r := eval vm_compute in
    (fst (create_configuration decimal
            (sample_env (with_option "targetBins" "/db/bins.bed" sample_config)
                        frozen_clock)
            sample_args (VStr "tumor.bam") (VInt 1)
            (with_option "targetBins" "/db/bins.bed" sample_config) [])) in
  lazymatch r with
  | inr ?res =>
      exists res;
      assert (Hrun : fst (create_configuration decimal
                 (sample_env (with_option "targetBins" "/db/bins.bed" sample_config)
                             frozen_clock)
                 sample_args (VStr "tumor.bam") (VInt 1)
                 (with_option "targetBins" "/db/bins.bed" sample_config) []) = inr res)
        by (vm_compute; reflexivity)
  end.
  split; [exact Hrun |].
  split.
  - apply (X1_none_sentinel _ decimal _ _ _ _ _ _ _ Hrun "sourceBed" "srcBed").
    right. right. left. reflexivity.
  - apply (X1_none_sentinel _ decimal _ _ _ _ _ _ _ Hrun "targetBins" "targetBins").
    right. left. reflexivity.
Defined.

Lemma X2_witness :
  (exists res,
      fst (create_configuration decimal (sample_env sample_config frozen_clock)
             sample_args (VStr "tumor.bam") (VInt 1) sample_config []) = inr res /\
      dict_get (r_confDict res) "filterDup" = Some (Obj (VBool true)) /\
      dict_get (r_confDict res) "retroTestWGS" = Some (Obj (VBool false))) /\
  (exists e,
      fst (create_configuration decimal
             (sample_env (with_option "wgsData" "maybe" sample_config) frozen_clock)
             sample_args (VStr "tumor.bam") (VInt 1)
             (with_option "wgsData" "maybe" sample_config) []) = inl e).
Proof.
  split.
  - let r := eval vm_compute in
      (fst (create_configuration decimal (sample_env sample_config frozen_clock)
              sample_args (VStr "tumor.bam") (VInt 1) sample_config [])) in
    lazymatch r with
    | inr ?res =>
        exists res;
        assert (Hrun : fst (create_configuration decimal
                   (sample_env sample_config frozen_clock)
                   sample_args (VStr "tumor.bam") (VInt 1) sample_config []) = inr res)
          by (vm_compute; reflexivity)
    end.
    split; [exact Hrun |].
    split.
    + apply (proj1 (X2_boolean_options _ decimal _ _ _ _ _ _) _ Hrun
               "noDuplicates" "filterDup").
      left. reflexivity.
    + apply (proj1 (X2_boolean_options _ decimal _ _ _ _ _ _) _ Hrun
               "wgsData" "retroTestWGS").
      right. left. reflexivity.
  - apply (proj2 (X2_boolean_options _ decimal
                    (sample_env (with_option "wgsData" "maybe" sample_config)
                                frozen_clock)
                    sample_args (VStr "tumor.bam") (VInt 1)
                    (with_option "wgsData" "maybe" sample_config) [])
             "wgsData" "retroTestWGS" "maybe").
    + right. left. reflexivity.
    + reflexivity.
    + reflexivity.
Defined.

Lemma X3_witness :
  exists res,
    fst (create_configuration decimal (sample_env sample_config frozen_clock)
           sample_args (VStr "tumor.bam") (VInt 1) sample_config []) = inr res /\
    map fst (r_confDict res) = conf_keys /\
    dict_get (r_confDict res) "source" = Some (Obj (VStr "MEIGA-SR-1.1.0")) /\
    r_outDir res = "/work" /\
    r_logDir res = r_outDir res ++ "/logs".
Proof.
  let r := eval vm_compute in
    (fst (create_configuration decimal (sample_env sample_config frozen_clock)
            sample_args (VStr "tumor.bam") (VInt 1) sample_config [])) in
  lazymatch r with
  | inr ?res =>
      exists res;
      assert (Hrun : fst (create_configuration decimal
                 (sample_env sample_config frozen_clock)
                 sample_args (VStr "tumor.bam") (VInt 1) sample_config []) = inr res)
        by (vm_compute; reflexivity)
  end.
  split; [exact Hrun |].
  destruct (X3_record_layout _ decimal _ _ _ _ _ _ _ Hrun)
    as (Hkeys & Hsource & _ & _ & _ & _ & Hlog).
  split; [exact Hkeys |]. split; [exact Hsource |].
  split; [reflexivity | exact Hlog].
Defined.

Lemma X4_witness :
  clock_reads (trace (main decimal (sample_env sample_config frozen_clock)
                           ["call"; "-o"; "/out"; "meiga.ini"; "tumor.bam"])) = [] /\
  created_dirs (trace (main decimal (sample_env sample_config frozen_clock)
                            ["call"; "-o"; "/out"; "meiga.ini"; "tumor.bam"]))
  = [VStr "/out"; VStr "/out"; VStr "/out/logs"].
Proof.
  let r := eval vm_compute in
    (parse_args "/work" ["call"; "-o"; "/out"; "meiga.ini"; "tumor.bam"]) in
  lazymatch r with
  | Parsed ?ns =>
      apply (X4_plain_run_directories _ decimal (sample_env sample_config frozen_clock)
               ["call"; "-o"; "/out"; "meiga.ini"; "tumor.bam"] ns "/out")
  end.
  - vm_compute. reflexivity.
  - reflexivity.
  - reflexivity.
  - vm_compute. reflexivity.
Defined.

Lemma X5_witness :
  exists first out,
    dirs_and_log (trace (main decimal (sample_env sample_config frozen_clock)
                              ["call"; "meiga.ini"; "tumor.bam"]))
    = [inl first; inl (VStr out); inl (VStr (out ++ "/logs"));
       inr ((out ++ "/logs") ++ "/main.log")].
Proof.
  apply (X5_log_file_after_directories _ decimal (sample_env sample_config frozen_clock)
           ["call"; "meiga.ini"; "tumor.bam"]).
  vm_compute. discriminate.
Defined.

Lemma X6_witness :
  outcome (main decimal (sample_env sample_config frozen_clock)
                ["call"; "meiga.ini"; "tumor.bam"]) = inr tt /\
  last (trace (main decimal (sample_env sample_config frozen_clock)
                    ["call"; "meiga.ini"; "tumor.bam"])) TimeRead = Log LogFinished /\
  engine_calls (trace (main decimal (sample_env sample_config frozen_clock)
                            ["call"; "meiga.ini"; "tumor.bam"])) = [MEI_caller].
Proof.
  assert (Hrun : outcome (main decimal (sample_env sample_config frozen_clock)
                               ["call"; "meiga.ini"; "tumor.bam"]) = inr tt)
    by (vm_compute; reflexivity).
  split; [exact Hrun |].
  destruct (X6_normal_end _ decimal _ _ Hrun) as (_ & _ & Hlast & _).
  split; [exact Hlast |].
  vm_compute. reflexivity.
Defined.

Lemma X7_witness :
  outcome (main decimal (sample_env_engine_fails sample_config)
                ["call"; "meiga.ini"; "tumor.bam"]) = inl (CollaboratorError "call") /\
  exit_status (outcome (main decimal (sample_env_engine_fails sample_config)
                             ["call"; "meiga.ini"; "tumor.bam"])) = 1%Z /\
  last (trace (main decimal (sample_env_engine_fails sample_config)
                    ["call"; "meiga.ini"; "tumor.bam"])) TimeRead
  = CallEngine MEI_caller.
Proof.
  apply (proj1 (X7_engine_failure_propagates _ decimal
                  (sample_env_engine_fails sample_config)
                  ["call"; "meiga.ini"; "tumor.bam"]) MEI_caller).
  - vm_compute. left. reflexivity.
  - reflexivity.
Defined.

Lemma X8_witness :
  (outcome (main decimal (sample_env sample_config frozen_clock)
                 ["call"; "other.ini"; "tumor.bam"]) = inl (KeyError "MEIGA-SR") /\
   log_writes (trace (main decimal (sample_env sample_config frozen_clock)
                           ["call"; "other.ini"; "tumor.bam"])) = []) /\
  (outcome (main decimal (sample_env_no_header sample_config)
                 ["call"; "meiga.ini"; "tumor.bam"])
   = inl (ConfigparserError "MissingSectionHeaderError") /\
   log_writes (trace (main decimal (sample_env_no_header sample_config)
                           ["call"; "meiga.ini"; "tumor.bam"])) = []).
Proof.
  split.
  - destruct (X8_missing_section _ decimal (sample_env sample_config frozen_clock)
                ["call"; "other.ini"; "tumor.bam"] (VStr "other.ini"))
      as (Hout & _ & Hlog & _).
    + vm_compute. left. reflexivity.
    + right. reflexivity.
    + split; [exact Hout | exact Hlog].
  - destruct (X8_missing_section _ decimal (sample_env_no_header sample_config)
                ["call"; "meiga.ini"; "tumor.bam"] (VStr "meiga.ini"))
      as (Hout & _ & Hlog & _).
    + vm_compute. left. reflexivity.
    + left. discriminate.
    + split; [exact Hout | exact Hlog].
Defined.

Lemma X9_witness :
  exists refDir annovarDir,
    db_checks (trace (main decimal (sample_env sample_config frozen_clock)
                           ["call"; "meiga.ini"; "tumor.bam"]))
    = [(refDir, annovarDir)] /\
    missing_db (sample_env sample_config frozen_clock) refDir annovarDir = [].
Proof.
  let c := eval vm_compute in
    (constructions
       (trace (main decimal (sample_env sample_config frozen_clock)
                    ["call"; "meiga.ini"; "tumor.bam"]))) in
  lazymatch c with
  | [Construct ?k ?m ?b ?nb ?rf ?rd ?d] =>
      assert (Hin : In (Construct k m b nb rf rd d)
                       (trace (main decimal (sample_env sample_config frozen_clock)
                                    ["call"; "meiga.ini"; "tumor.bam"])))
        by (apply in_constructions; vm_compute; left; reflexivity);
      destruct (X9_engine_after_database_check _ decimal _ _ _ _ _ _ _ _ _ Hin)
        as (a & _ & Hdb & Hmiss);
      exists rd, a
  end.
  split; [exact Hdb | exact Hmiss].
Defined.

Lemma X10_witness :
  exists conf,
    logged_values (trace (main decimal (sample_env sample_config frozen_clock)
                               ["call"; "-p"; "4"; "meiga.ini"; "tumor.bam"]))
    = ("normalBam: ", Obj VNone, "")
        :: ("processes: ", Obj (VInt 4), nl ++ nl)
        :: map (fun kv => (fst kv ++ " => ", snd kv, "")) conf.
Proof.
  let c := eval vm_compute in
    (constructions
       (trace (main decimal (sample_env sample_config frozen_clock)
                    ["call"; "-p"; "4"; "meiga.ini"; "tumor.bam"]))) in
  lazymatch c with
  | [Construct ?k ?m ?b ?nb ?rf ?rd ?d] =>
      assert (Hin : In (Construct k m b nb rf rd d)
                       (trace (main decimal (sample_env sample_config frozen_clock)
                                    ["call"; "-p"; "4"; "meiga.ini"; "tumor.bam"])))
        by (apply in_constructions; vm_compute; left; reflexivity);
      destruct (X10_configuration_logged_in_order _ decimal _ _ _ _ _ _ _ _ _ Hin)
        as (ns & processes & Hparse & Hproc & Hlogged);
      exists d
  end.
  vm_compute in Hparse. injection Hparse as <-.
  vm_compute in Hproc. injection Hproc as <-.
  exact Hlogged.
Defined.

Lemma X12_witness :
  exists ns,
    parse_args "/work" ["call-tds"; "-d"; "meiga.ini"; "tumor.bam"] = Parsed ns /\
    dict_get ns "call_tds" = Some (VBool true) /\
    dict_get ns "predict" = None /\
    exists d, dict_get ns "debug" = Some (VBool d).
Proof.
  let r := eval vm_compute in
    (parse_args "/work" ["call-tds"; "-d"; "meiga.ini"; "tumor.bam"]) in
  lazymatch r with
  | Parsed ?ns =>
      exists ns;
      assert (Hparse : parse_args "/work" ["call-tds"; "-d"; "meiga.ini"; "tumor.bam"]
                       = Parsed ns) by (vm_compute; reflexivity)
  end.
  split; [exact Hparse |].
  destruct (X12_namespace_attributes _ decimal _ _ _ _ Hparse)
    as (sub & Htok & _ & _ & _ & _ & Hd & Hct & Hp).
  destruct sub; [discriminate Htok |].
  split; [exact Hct |]. split; [exact Hp | exact Hd].
Defined.

Lemma X13_witness :
  config_reads (trace (main decimal (sample_env sample_config frozen_clock)
                            ["call"; "meiga.ini"; "tumor.bam"]))
  = [VStr "meiga.ini"] /\
  clock_reads (trace (main decimal (sample_env sample_config frozen_clock)
                           ["call"; "meiga.ini"; "tumor.bam"])) = [] /\
  created_dirs (trace (main decimal (sample_env sample_config frozen_clock)
                            ["call"; "meiga.ini"; "tumor.bam"]))
  = [VStr "/work"; VStr "/work"; VStr "/work/logs"] /\
  exists reference refDir conf,
    constructions (trace (main decimal (sample_env sample_config frozen_clock)
                               ["call"; "meiga.ini"; "tumor.bam"]))
    = [Construct MEI_caller "SINGLE" (VStr "tumor.bam") VNone reference refDir conf].
Proof.
  apply (X13_call_without_options _ decimal (sample_env sample_config frozen_clock)
           "meiga.ini" "tumor.bam").
  - reflexivity.
  - reflexivity.
  - vm_compute. reflexivity.
Defined.
